(** * Signup server of deuxdrop ([rdservers/signup/server.js])

    A shallow embedding of the signup endpoint: the soft-failure task that
    validates a signup bundle, the early-return task that processes it
    (existing-account gate, challenge gate, provisioning), the BrowserID
    verifier and the endpoint table built by [makeServerDef].

    JavaScript values are modelled as JSON-like trees; a statement that can
    throw returns a [Completion]; the task's [this] object, together with the
    log of what was done on the connection and on the account store, is
    threaded explicitly through the steps. *)

From Stdlib Require Import List String Ascii ZArith Bool Lia DecimalString.
Import ListNotations.
Open Scope string_scope.
Set Warnings "-register-all".

(** ** JavaScript values *)

Module Js.

(** JSON-like values.  Numbers are restricted to integers (the only number the
    source compares against is the literal [1]); strings are sequences of code
    units. *)
Inductive value : Type :=
| Undefined
| Null
| Bool (b : bool)
| Num (n : Z)
| Str (s : string)
| Arr (elems : list value)
| Obj (fields : list (string * value)).

(** Errors that the source throws itself, or that the runtime raises. *)
Inductive error : Type :=
| TypeError
| ReferenceError (ident : string)
| MalformedPayloadError
| KeyMismatchError
| UnauthorizedUserDataLeakError
| PlainError (message : string)
| ExternalError (origin : string).

(** Result of evaluating a statement or an expression. *)
Inductive Completion (A : Type) : Type :=
| Normal (a : A)
| Throw (e : error).
Arguments Normal {A} a.
Arguments Throw {A} e.

Definition cbind {A B} (c : Completion A) (k : A -> Completion B)
  : Completion B :=
  match c with
  | Normal a => k a
  | Throw e => Throw e
  end.

Declare Scope js_scope.
Delimit Scope js_scope with js.
Notation "'let!' x ':=' c 'in' k" := (cbind c (fun x => k))
  (at level 10, x name, c at level 100, k at level 200) : js_scope.
Open Scope js_scope.

(** [ToBoolean]. *)
Definition truthy (v : value) : bool :=
  match v with
  | Undefined | Null => false
  | Bool b => b
  | Num n => negb (Z.eqb n 0)
  | Str s => negb (String.eqb s "")
  | Arr _ | Obj _ => true
  end.

Definition string_of_nat (n : nat) : string :=
  NilZero.string_of_uint (Nat.to_uint n).

Definition string_of_Z (z : Z) : string :=
  NilZero.string_of_int (Z.to_int z).

(** An array-index property name is the canonical decimal spelling of a
    natural number. *)
Definition index_of_key (k : string) : option nat :=
  match NilZero.uint_of_string k with
  | Some u =>
      let n := Nat.of_uint u in
      if String.eqb (string_of_nat n) k then Some n else None
  | None => None
  end.

Fixpoint assoc (k : string) (fs : list (string * value)) : option value :=
  match fs with
  | [] => None
  | (k', v) :: rest => if String.eqb k k' then Some v else assoc k rest
  end.

Definition has_key (k : string) (fs : list (string * value)) : bool :=
  match assoc k fs with Some _ => true | None => false end.

(** Property read [v.k] / [v[k]].  Reading from [undefined] or [null] throws;
    a missing property reads as [undefined].  None of the property names the
    source reads lives on a built-in prototype, except [length], which arrays
    and strings carry themselves. *)
Definition get_prop (v : value) (k : string) : Completion value :=
  match v with
  | Undefined | Null => Throw TypeError
  | Bool _ | Num _ => Normal Undefined
  | Str s =>
      if String.eqb k "length" then Normal (Num (Z.of_nat (String.length s)))
      else match index_of_key k with
           | Some i => match String.get i s with
                       | Some c => Normal (Str (String c EmptyString))
                       | None => Normal Undefined
                       end
           | None => Normal Undefined
           end
  | Arr xs =>
      if String.eqb k "length" then Normal (Num (Z.of_nat (List.length xs)))
      else match index_of_key k with
           | Some i => match nth_error xs i with
                       | Some x => Normal x
                       | None => Normal Undefined
                       end
           | None => Normal Undefined
           end
  | Obj fs =>
      match assoc k fs with
      | Some x => Normal x
      | None => Normal Undefined
      end
  end.

(** The call [v.hasOwnProperty(k)].  On an object that carries a data property
    named [hasOwnProperty] the call hits that (non-callable) value. *)
Definition has_own_property (v : value) (k : string) : Completion bool :=
  match v with
  | Undefined | Null => Throw TypeError
  | Bool _ | Num _ => Normal false
  | Str s =>
      Normal (String.eqb k "length" ||
              match index_of_key k with
              | Some i => Nat.ltb i (String.length s)
              | None => false
              end)
  | Arr xs =>
      Normal (String.eqb k "length" ||
              match index_of_key k with
              | Some i => Nat.ltb i (List.length xs)
              | None => false
              end)
  | Obj fs =>
      if has_key "hasOwnProperty" fs then Throw TypeError
      else Normal (has_key k fs)
  end.

Definition is_array (v : value) : bool :=
  match v with Arr _ => true | _ => false end.

Definition is_string (v : value) : bool :=
  match v with Str _ => true | _ => false end.

(** [v === s] and [v === n] against a primitive: no coercion. *)
Definition strict_eq_str (v : value) (s : string) : bool :=
  match v with Str s' => String.eqb s' s | _ => false end.

Definition strict_eq_num (v : value) (n : Z) : bool :=
  match v with Num n' => Z.eqb n' n | _ => false end.

Fixpoint dedup (ks : list string) : list string :=
  match ks with
  | [] => []
  | k :: rest =>
      k :: filter (fun k' => negb (String.eqb k' k)) (dedup rest)
  end.

(** The property names a [for (k in v)] loop visits.  (An object lists its
    integer-like names first; no such name is ever a challenge kind, so the
    order among the others, which is insertion order, is what matters.) *)
Definition for_in_keys (v : value) : list string :=
  match v with
  | Obj fs => dedup (map fst fs)
  | Arr xs => map string_of_nat (seq 0 (List.length xs))
  | Str s => map string_of_nat (seq 0 (String.length s))
  | _ => []
  end.

(** [CreateDataProperty]: file [v] as the own property [k], in place when
    the name is there already, at the end otherwise. *)
Fixpoint put_own (fs : list (string * value)) (k : string) (v : value)
  : list (string * value) :=
  match fs with
  | [] => [(k, v)]
  | (k', v') :: rest =>
      if String.eqb k k' then (k, v) :: rest else (k', v') :: put_own rest k v
  end.

(** What has become of the prototype of an object that the module created
    with the literal [{}]: still [Object.prototype], or [null], or an object
    of the message, after an assignment to [__proto__]. *)
Inductive Prototype : Type :=
| ObjectPrototype
| NoPrototype
| ValuePrototype (v : value).

(** An object created with the literal [{}]: its own properties and its
    prototype. *)
Record Literal : Type := {
  members : list (string * value);
  prototype : Prototype
}.

Definition emptyLiteral : Literal :=
  {| members := []; prototype := ObjectPrototype |}.

(** Whether an assignment to [__proto__] finds the accessor of
    [Object.prototype] along the prototype chain: not once the prototype is
    [null], and not when the prototype is an object of the message that
    carries a data property of that name (a parsed object can), which the
    lookup then meets first. *)
Definition reaches_proto_accessor (p : Prototype) : bool :=
  match p with
  | ObjectPrototype => true
  | NoPrototype => false
  | ValuePrototype (Obj fs) => negb (has_key "__proto__" fs)
  | ValuePrototype _ => true
  end.

(** Assignment [o[k] = v] on such an object.  Every name but one is filed as
    an own property.  Under the name [__proto__], as long as the accessor is
    reached, nothing is filed: an object or an array becomes the prototype,
    [null] removes it, and any other value is ignored. *)
Definition obj_set (o : Literal) (k : string) (v : value) : Literal :=
  if String.eqb k "__proto__" && reaches_proto_accessor (prototype o) then
    match v with
    | Null => {| members := members o; prototype := NoPrototype |}
    | Arr _ | Obj _ =>
        {| members := members o; prototype := ValuePrototype v |}
    | _ => o
    end
  else {| members := put_own (members o) k v; prototype := prototype o |}.

(** [ToString], which turns a computed member name into a property name.  An
    object carrying a data property [toString] cannot be converted.  A number
    is spelled by the runtime from the double behind it (the shortest decimal
    that reads back as the same double, with an exponent from 1e21 on);
    numbers being integers here, that spelling is the parameter [spell]. *)
Fixpoint to_js_string (spell : Z -> string) (v : value)
  : Completion string :=
  match v with
  | Undefined => Normal "undefined"
  | Null => Normal "null"
  | Bool true => Normal "true"
  | Bool false => Normal "false"
  | Num n => Normal (spell n)
  | Str s => Normal s
  | Arr xs =>
      (fix join (l : list value) : Completion string :=
         match l with
         | [] => Normal ""
         | x :: rest =>
             let! sx := match x with
                        | Undefined | Null => Normal ""
                        | _ => to_js_string spell x
                        end in
             match rest with
             | [] => Normal sx
             | _ => let! sr := join rest in Normal (sx ++ "," ++ sr)
             end
         end) xs
  | Obj fs =>
      if has_key "toString" fs then Throw TypeError
      else Normal "[object Object]"
  end.

(** [v.indexOf(s) !== -1] for a string needle. *)
Fixpoint contains (needle hay : string) : bool :=
  match hay with
  | EmptyString => String.eqb needle ""
  | String _ rest => String.prefix needle hay || contains needle rest
  end.

Definition index_of_found (v : value) (needle : string) : Completion bool :=
  match v with
  | Str s => Normal (contains needle s)
  | Arr xs => Normal (existsb (fun x => strict_eq_str x needle) xs)
  | _ => Throw TypeError
  end.

End Js.
Import Js.

(** ** What the module takes from elsewhere *)

(** The signup message, a [ClientSignupBundle].  It reached the handler
    [_msg_root_signup] through its [type], so it is an object; a field that is
    absent reads as [Undefined]. *)
Record Msg : Type := {
  selfIdent : value;
  clientAuths : value;
  storeKeyring : value;
  because : value
}.

(** The account store, reached as [serverConfig.authApi].  A call that fails
    (a rejected promise) is a [Throw]. *)
Record AuthApi : Type := {
  serverCheckUserAccount : value -> Completion value;
  serverCreateUserAccount :
    value -> value -> value -> value -> value -> Completion value;
  phonebookScanPublicListing : Completion value
}.

Record ServerConfig : Type := {
  selfIdentBlob : string;
  authApi : AuthApi
}.

(** The connection as the tasks see it. *)
Record Conn : Type := {
  clientPublicKey : string;
  serverConfig : ServerConfig
}.

(** A parsed JSON web token: what [tok.audience] reads and what
    [tok.verify(pk)] answers. *)
Record Token : Type := {
  audience : value;
  verify : value -> bool
}.

(** The imported modules, taken as parameters: [$pubident], [$keyops],
    [$jwc_vep], [$jwc_jwcert], the token parser and the clock, and with them
    the runtime's spelling of numbers.  [verifyChain] receives the three
    callbacks the source hands it and may call any of them before it
    returns; a callback that it calls later cannot change what the caller
    has already returned. *)
Record Externals : Type := {
  assertGetPersonSelfIdent : value -> value -> Completion value;
  assertCheckGetAttestation : value -> string -> list value -> Completion value;
  unbundleCertsAndAssertion : value -> Completion value;
  verifyChain :
    value -> Z ->
    (value -> Completion unit) ->
    (value -> value -> Completion unit) ->
    (value -> Completion unit) ->
    Completion unit;
  parseToken : value -> Completion Token;
  currentTime : Z;
  numberToString : Z -> string
}.

(** Identifiers the module uses without declaring or importing them: [$Q],
    [when], [jwt] and [problemo].  Each resolves against the global object;
    reading one that is not bound there throws a [ReferenceError].  When
    bound, [$Q] is the promise library, [when] its [when] function and [jwt]
    the token module. *)
Record Globals : Type := {
  has_Q : bool;
  has_when : bool;
  has_jwt : bool;
  problemo : option value
}.

(** The globals of a loader that binds nothing beyond the module's own
    imports. *)
Definition module_globals : Globals :=
  {| has_Q := false; has_when := false; has_jwt := false; problemo := None |}.

Definition lookup_global (bound : bool) (ident : string) : Completion unit :=
  if bound then Normal tt else Throw (ReferenceError ident).

(** ** The task idiom *)

Module TaskIdiom.

(** What a step does to the task it belongs to. *)
Inductive Outcome (A : Type) : Type :=
| Continue (a : A)
| EarlyReturn (v : value)
| Fail (e : error).
Arguments Continue {A} a.
Arguments EarlyReturn {A} v.
Arguments Fail {A} e.

(** How a task ends. *)
Inductive TaskResult : Type :=
| Resolved (v : value)
| Rejected (e : error).

Section Engine.
Context {S : Type}.

(** A computation on the task object [this]. *)
Definition M (A : Type) : Type := S -> Outcome A * S.

Definition ret {A} (a : A) : M A := fun this => (Continue a, this).

Definition bind {A B} (m : M A) (k : A -> M B) : M B :=
  fun this =>
    match m this with
    | (Continue a, this') => k a this'
    | (EarlyReturn v, this') => (EarlyReturn v, this')
    | (Fail e, this') => (Fail e, this')
    end.

Definition lift {A} (c : Completion A) : M A :=
  fun this =>
    match c with
    | Normal a => (Continue a, this)
    | Throw e => (Fail e, this)
    end.

Definition throw {A} (e : error) : M A := fun this => (Fail e, this).

(** [this.earlyReturn(v)], returned by a step. *)
Definition earlyReturn {A} (v : value) : M A :=
  fun this => (EarlyReturn v, this).

Definition get : M S := fun this => (Continue this, this).
Definition put (this' : S) : M unit := fun _ => (Continue tt, this').

(** A step receives what the previous step produced. *)
Definition Step : Type := value -> M value.

(** Modelled from the spec: the step runner of [rdcommon/taskidiom], which
    is not among the sources.  Steps run strictly in declaration order, each
    one after the previous one has produced its result; a step that signals
    early termination ends the run at once, and so does a step that
    fails. *)
Fixpoint run_steps (steps : list Step) (arg : value) : M value :=
  match steps with
  | [] => ret arg
  | step :: rest => bind (step arg) (run_steps rest)
  end.

(** Modelled from the spec: [defineEarlyReturnTask].  An early return
    resolves the task with the given value and skips the remaining steps;
    a failing step is fatal to the task. *)
Definition runEarlyReturnTask (steps : list Step) (this : S)
  : TaskResult * S :=
  match run_steps steps Undefined this with
  | (Continue v, this') => (Resolved v, this')
  | (EarlyReturn v, this') => (Resolved v, this')
  | (Fail e, this') => (Rejected e, this')
  end.

(** Modelled from the spec: [defineSoftFailureTask].  Any failing step makes
    the whole task resolve with [false]; success resolves with what the last
    step produced.  (The comment above [ValidateSignupRequestTask] in the
    source says the same.) *)
Definition runSoftFailureTask (steps : list Step) (this : S) : value :=
  match run_steps steps Undefined this with
  | (Continue v, _) => v
  | (EarlyReturn v, _) => v
  | (Fail _, _) => Bool false
  end.
End Engine.

Arguments M : clear implicits.
Arguments Step : clear implicits.

Declare Scope task_scope.
Delimit Scope task_scope with task.
Notation "x <- m ;; k" := (bind m (fun x => k))
  (at level 61, m at next level, right associativity) : task_scope.
Notation "m ;; k" := (bind m (fun _ => k))
  (at level 61, right associativity) : task_scope.

End TaskIdiom.
Import TaskIdiom.
Open Scope task_scope.

(** ** Challenge mechanisms *)

Definition CHALLENGE_NEVER : string := "never".
Definition CHALLENGE_ALREADY_SIGNED_UP : string := "already-signed-up".
Definition CHALLENGE_INVALID_BROWSERID : string := "bad-browserid-assertion".
Definition CHALLENGE_SERVER_PROBLEM : string :=
  "server-problem-try-again-later".

(** ** [ValidateSignupRequestTask] *)

Module ValidateSignupRequestTask.

(** The task object: its three arguments and the field the first step sets. *)
Record This : Type := {
  msg : Msg;
  peerKey : string;           (* the argument [clientPublicKey] *)
  config : ServerConfig;      (* the argument [serverConfig] *)
  personSelfIdentPayload : value
}.

Definition set_personSelfIdentPayload (p : value) (this : This) : This :=
  {| msg := msg this; peerKey := peerKey this; config := config this;
     personSelfIdentPayload := p |}.

Section Steps.
Variable ext : Externals.

(** Make sure the self-ident blob is self-consistent and names us as the
    server of record, and that its poco has a [displayName]. *)
Definition validateSelfIdent : Step This := fun _ =>
  this <- get ;;
  p <- lift (assertGetPersonSelfIdent ext (selfIdent (msg this)) Null) ;;
  put (set_personSelfIdentPayload p this) ;;
  transit <- lift (get_prop p "transitServerIdent") ;;
  if negb (strict_eq_str transit (selfIdentBlob (config this)))
  then throw KeyMismatchError
  else
    poco <- lift (get_prop p "poco") ;;
    has <- lift (has_own_property poco "displayName") ;;
    if negb has then throw MalformedPayloadError
    else ret Undefined.

(** The body of the [for] loop over [clientAuthBlobs], from index [iAuth]
    on: [found] is [foundClientWeAreTalkingTo], [map] is [clientAuthsMap]. *)
Fixpoint checkClientAuths (authorizedKeys : list value) (peer : string)
    (blobs : list value) (found : bool) (map : Literal)
  : Completion (bool * Literal) :=
  match blobs with
  | [] => Normal (found, map)
  | blob :: rest =>
      let! clientAuth :=
        assertCheckGetAttestation ext blob "client" authorizedKeys in
      let! key := get_prop clientAuth "authorizedKey" in
      let! name := to_js_string (numberToString ext) key in
      let map' := obj_set map name blob in
      let found' := if strict_eq_str key peer then true else found in
      checkClientAuths authorizedKeys peer rest found' map'
  end.

(** Make sure all named clients are authorized and that we are talking to
    one of them.  The valid bits carry the map as the object of its own
    properties; nothing in the module reads a property of the map, so what
    became of its prototype shows nowhere. *)
Definition validateClientAuth : Step This := fun _ =>
  this <- get ;;
  let clientAuthBlobs := clientAuths (msg this) in
  match clientAuthBlobs with
  | Arr blobs =>
      if Nat.eqb (List.length blobs) 0 then throw MalformedPayloadError
      else
        root <- lift (get_prop (personSelfIdentPayload this) "root") ;;
        longterm <- lift (get_prop root "longtermSignPubKey") ;;
        r <- lift (checkClientAuths [longterm] (peerKey this) blobs
                     false emptyLiteral) ;;
        let '(foundClientWeAreTalkingTo, clientAuthsMap) := r in
        if negb foundClientWeAreTalkingTo
        then throw UnauthorizedUserDataLeakError
        else ret (Obj [("selfIdentPayload", personSelfIdentPayload this);
                       ("clientAuthsMap", Obj (members clientAuthsMap))])
  | _ => throw MalformedPayloadError
  end.

Definition steps : list (Step This) :=
  [validateSelfIdent; validateClientAuth].

Definition init (m : Msg) (peer : string) (cfg : ServerConfig) : This :=
  {| msg := m; peerKey := peer; config := cfg;
     personSelfIdentPayload := Undefined |}.

(** [new ValidateSignupRequestTask({msg, clientPublicKey, serverConfig})],
    run to its resolution: the valid bits, or [false]. *)
Definition run (m : Msg) (peer : string) (cfg : ServerConfig) : value :=
  runSoftFailureTask steps (init m peer cfg).

(** The same two steps without the soft-failure wrapper, to name the error
    that the wrapper absorbs. *)
Definition raw (m : Msg) (peer : string) (cfg : ServerConfig)
  : Outcome value :=
  fst (run_steps steps Undefined (init m peer cfg)).
End Steps.

End ValidateSignupRequestTask.

(** ** [ProcessSignupTask] *)

(** What a run does to the outside world, in order: messages written to the
    peer, the closing of the connection, and calls on the account store. *)
Inductive Event : Type :=
| WriteMessage (message : value)
| Close
| CheckUserAccount (rootSignPubKey : value)
| CreateUserAccount
    (payload rawSelfIdent authsMap keyring publicListInfo : value).

(** A promise, as the step runner finds it once it has settled. *)
Inductive Promise : Type :=
| Kept (v : value)
| Broken (e : error).

(** What a challenge verifier hands back: a plain value or a promise. *)
Inductive VerifierResult : Type :=
| Plain (v : value)
| Pending (p : Promise).

(** [$Q.all] on settled promises: all the values, or the first rejection. *)
Fixpoint all (ps : list Promise) : Completion (list value) :=
  match ps with
  | [] => Normal []
  | Kept v :: rest => let! vs := all rest in Normal (v :: vs)
  | Broken e :: _ => Throw e
  end.

(** [a === b] on two values that come from different sources: objects and
    arrays are compared by identity, so two distinct ones never agree. *)
Definition strict_eq (a b : value) : bool :=
  match a, b with
  | Undefined, Undefined => true
  | Null, Null => true
  | Bool x, Bool y => Bool.eqb x y
  | Num x, Num y => Z.eqb x y
  | Str x, Str y => String.eqb x y
  | _, _ => false
  end.

(** [var deferred = $Q.defer]: the right-hand side has no call parentheses, so
    [deferred] is the library's function and not a deferred object. *)
Inductive Deferred : Type :=
| DeferFunction.

(** [deferred.promise]: a function object has no such property. *)
Definition deferred_promise (d : Deferred) : value :=
  match d with DeferFunction => Undefined end.

(** [deferred.resolve(v)]: the member is [undefined], and calling it
    throws. *)
Definition deferred_resolve (d : Deferred) (v : value) : Completion unit :=
  match d with DeferFunction => Throw TypeError end.

Definition challengeMessage (challengeType : value) : value :=
  Obj [("type", Str "challenge");
       ("challenge", Obj [("mechanism", challengeType)])].

Definition signedUpMessage : value := Obj [("type", Str "signedUp")].

Module ProcessSignupTask.

(** The task object: its two arguments, the fields the steps set, and the log
    of events so far. *)
Record This : Type := {
  msg : Msg;
  conn : Conn;
  selfIdentPayload : value;
  clientAuthsMap : value;
  challenges : list string;
  log : list Event
}.

Definition emit (e : Event) : M This unit := fun this =>
  (Continue tt,
   {| msg := msg this; conn := conn this;
      selfIdentPayload := selfIdentPayload this;
      clientAuthsMap := clientAuthsMap this;
      challenges := challenges this;
      log := log this ++ [e] |}).

Definition set_validBits (payload authsMap : value) : M This unit :=
  fun this =>
  (Continue tt,
   {| msg := msg this; conn := conn this;
      selfIdentPayload := payload;
      clientAuthsMap := authsMap;
      challenges := challenges this;
      log := log this |}).

Definition set_challenges (cs : list string) : M This unit := fun this =>
  (Continue tt,
   {| msg := msg this; conn := conn this;
      selfIdentPayload := selfIdentPayload this;
      clientAuthsMap := clientAuthsMap this;
      challenges := cs;
      log := log this |}).

Section Steps.
Variable ext : Externals.
Variable g : Globals.

(** [impl.respondWithChallenge]: write the challenge, close, return
    early. *)
Definition respondWithChallenge {A} (challengeType : value) : M This A :=
  emit (WriteMessage (challengeMessage challengeType)) ;;
  emit Close ;;
  earlyReturn Undefined.

(** [impl.validateClientOrigin]: only hosts without a dot are accepted. *)
Definition validateClientOrigin (host : value) : Completion bool :=
  let! dotted := index_of_found host "." in
  Normal (negb dotted).

Definition rootCB (issuer : value) : Completion unit := Normal tt.

Definition successCB (deferred : Deferred) (bundle userClaimedEmail : value)
    (pk principal : value) : Completion unit :=
  let! _ := lookup_global (has_jwt g) "jwt" in
  let! assertion := get_prop bundle "assertion" in
  let! tok := parseToken ext assertion in
  let! originOk := validateClientOrigin (audience tok) in
  if negb originOk
  then deferred_resolve deferred (Str CHALLENGE_INVALID_BROWSERID)
  else
    let! email := get_prop principal "email" in
    if negb (strict_eq email userClaimedEmail)
    then deferred_resolve deferred (Str CHALLENGE_INVALID_BROWSERID)
    else if negb (verify tok pk)
    then deferred_resolve deferred (Str CHALLENGE_INVALID_BROWSERID)
    else deferred_resolve deferred Undefined.

Definition errorCB (deferred : Deferred) (err : value) : Completion unit :=
  deferred_resolve deferred (Str CHALLENGE_SERVER_PROBLEM).

(** [impl.verifyBrowserId].  The profile must declare exactly one address,
    a string, in [emails]; the claimed address is then read from [email];
    the assertion is unbundled, the chain verified as of now, and
    [deferred.promise] returned. *)
Definition verifyBrowserId (assertion : value) : M This VerifierResult :=
  this <- get ;;
  poco <- lift (get_prop (selfIdentPayload this) "poco") ;;
  hasEmails <- lift (has_own_property poco "emails") ;;
  unusable <-
    (if negb hasEmails then ret true
     else
       emails <- lift (get_prop poco "emails") ;;
       len <- lift (get_prop emails "length") ;;
       if negb (strict_eq_num len 1) then ret true
       else
         first <- lift (get_prop emails "0") ;;
         ret (negb (is_string first))) ;;
  if (unusable : bool) then ret (Plain (Str CHALLENGE_INVALID_BROWSERID))
  else
    email <- lift (get_prop poco "email") ;;
    userClaimedEmail <- lift (get_prop email "0") ;;
    match unbundleCertsAndAssertion ext assertion with
    | Throw _ => ret (Plain (Str CHALLENGE_INVALID_BROWSERID))
    | Normal bundle =>
        lift (lookup_global (has_Q g) "$Q") ;;
        let deferred := DeferFunction in
        let validateAsOf := currentTime ext in
        certificates <- lift (get_prop bundle "certificates") ;;
        lift (verifyChain ext certificates validateAsOf
                rootCB
                (successCB deferred bundle userClaimedEmail)
                (errorCB deferred)) ;;
        ret (Plain (deferred_promise deferred))
    end.

(** Ensure the request is well-formed/legitimate: the nested task. *)
Definition validateSignupRequest : Step This := fun _ =>
  this <- get ;;
  ret (ValidateSignupRequestTask.run ext
         (msg this) (clientPublicKey (conn this))
         (serverConfig (conn this))).

(** Convey permanent failure if the request was not valid. *)
Definition dealWithInvalidRequest : Step This := fun validBits =>
  if negb (truthy validBits)
  then respondWithChallenge (Str CHALLENGE_NEVER)
  else
    payload <- lift (get_prop validBits "selfIdentPayload") ;;
    authsMap <- lift (get_prop validBits "clientAuthsMap") ;;
    set_validBits payload authsMap ;;
    ret Undefined.

(** You can't signup if you are already signed up... *)
Definition checkForExistingAccount : Step This := fun _ =>
  this <- get ;;
  root <- lift (get_prop (selfIdentPayload this) "root") ;;
  rootSignPubKey <- lift (get_prop root "rootSignPubKey") ;;
  emit (CheckUserAccount rootSignPubKey) ;;
  lift (serverCheckUserAccount (authApi (serverConfig (conn this)))
          rootSignPubKey).

Definition verifyNoExistingAccount : Step This := fun hasAccount =>
  if truthy hasAccount
  then respondWithChallenge (Str CHALLENGE_ALREADY_SIGNED_UP)
  else ret Undefined.

(** Figure out what challenges could be used to authenticate this
    request. *)
Definition determineChallenges : Step This := fun _ =>
  set_challenges ["none"; "browserid"] ;;
  ret Undefined.

Definition indexOf_found (cs : list string) (c : string) : bool :=
  existsb (String.eqb c) cs.

(** The [switch (because)] statement, from [var result = null] on: what
    [result] holds after it. *)
Definition challengeSwitch (name : string) : M This VerifierResult :=
  this <- get ;;
  if String.eqb name "browserid" then
    assertion <- lift (get_prop (because (msg this)) name) ;;
    verifyBrowserId assertion
  else if String.eqb name "none" then ret (Plain Null)
  else throw (PlainError "Unimplemented but server supported challenge").

(** The [for (var because in this.msg.because)] loop, over the names still
    to visit, with the promises pushed so far. *)
Fixpoint challengeLoop (names : list string) (promises : list Promise)
  : M This (list Promise) :=
  match names with
  | [] => ret promises
  | name :: rest =>
      this <- get ;;
      (* ignore unsupported challenge types *)
      if negb (indexOf_found (challenges this) name)
      then challengeLoop rest promises
      else
        result <- challengeSwitch name ;;
        lift (lookup_global (has_Q g) "$Q") ;;
        match result with
        | Pending p =>
            (* $Q.isPromise(result) *)
            challengeLoop rest (promises ++ [p])
        | Plain v =>
            if truthy v then
              (* return this.respondWithChallenge(problemo) *)
              match problemo g with
              | Some challengeType => respondWithChallenge challengeType
              | None => throw (ReferenceError "problemo")
              end
            else challengeLoop rest promises
        end
  end.

(** The [successish] callback: the first truthy result is the challenge. *)
Fixpoint successish (results : list value) : M This value :=
  match results with
  | [] => ret Undefined
  | r :: rest =>
      if truthy r then respondWithChallenge r else successish rest
  end.

(** If a challenge response is included, verify it is one of the ones we
    are allowing. *)
Definition checkOrGenerateChallenge : Step This := fun _ =>
  this <- get ;;
  (* you pass without proof if 'none' is in the list. *)
  let passed := indexOf_found (challenges this) "none" in
  promises <- challengeLoop (for_in_keys (because (msg this))) [] ;;
  if negb (Nat.eqb (List.length promises) 0) then
    lift (lookup_global (has_when g) "when") ;;
    lift (lookup_global (has_Q g) "$Q") ;;
    match all promises with
    | Normal results => successish results
    | Throw _ => respondWithChallenge (Str CHALLENGE_SERVER_PROBLEM)
    end
  else ret Undefined.

Definition doTheSignup : Step This := fun _ =>
  this <- get ;;
  poco <- lift (get_prop (selfIdentPayload this) "poco") ;;
  displayName <- lift (get_prop poco "displayName") ;;
  let publicListInfo := Obj [("displayName", displayName)] in
  emit (CreateUserAccount (selfIdentPayload this) (selfIdent (msg this))
          (clientAuthsMap this) (storeKeyring (msg this))
          publicListInfo) ;;
  lift (serverCreateUserAccount (authApi (serverConfig (conn this)))
          (selfIdentPayload this) (selfIdent (msg this))
          (clientAuthsMap this) (storeKeyring (msg this))
          publicListInfo).

Definition tellThemTheyAreSignedUp : Step This := fun _ =>
  emit (WriteMessage signedUpMessage) ;;
  (* (end of the line; not an early return) *)
  emit Close ;;
  ret Undefined.

Definition steps : list (Step This) :=
  [validateSignupRequest; dealWithInvalidRequest;
   checkForExistingAccount; verifyNoExistingAccount;
   determineChallenges; checkOrGenerateChallenge;
   doTheSignup; tellThemTheyAreSignedUp].

Definition init (m : Msg) (c : Conn) : This :=
  {| msg := m; conn := c;
     selfIdentPayload := Undefined; clientAuthsMap := Undefined;
     challenges := []; log := [] |}.

(** [new ProcessSignupTask({msg, conn})], run to its end: how the task
    ended and the task object it left. *)
Definition run (m : Msg) (c : Conn) : TaskResult * This :=
  runEarlyReturnTask steps (init m c).

(** The events of a run, in order. *)
Definition events (m : Msg) (c : Conn) : list Event :=
  log (snd (run m c)).

(** The steps of the challenge stage alone, from a given task object. *)
Definition challengeStage (this : This) : Outcome value * This :=
  run_steps [determineChallenges; checkOrGenerateChallenge] Undefined this.
End Steps.

End ProcessSignupTask.

(** ** The endpoint table *)

Inductive ImplClass : Type :=
| SignupConnection
| PhonebookServerConnection.

Record EndpointDef : Type := {
  implClass : ImplClass;
  endpointConfig : ServerConfig;   (* the field [serverConfig] *)
  authVerifier : string -> value -> bool
}.

(** [exports.makeServerDef], its [endpoints] table. *)
Definition makeServerDef (cfg : ServerConfig)
  : list (string * EndpointDef) :=
  [("signup.deuxdrop",
    {| implClass := SignupConnection;
       endpointConfig := cfg;
       (* (we have no identity on file) *)
       authVerifier := fun endpoint clientKey => true |});
   ("phonebook.deuxdrop",
    {| implClass := PhonebookServerConnection;
       endpointConfig := cfg;
       authVerifier := fun endpoint clientKey => true |})].

(** ** [PhonebookTask] *)

Module PhonebookTask.

(** What a run does to the outside world, in order. *)
Inductive Action : Type :=
| ScanPublicListing
| Write (message : value)
| CloseConnection.

(** The task object: its two arguments and the log of actions so far. *)
Record This : Type := {
  msg : value;
  conn : Conn;
  log : list Action
}.

Definition emit (a : Action) : M This unit := fun this =>
  (Continue tt,
   {| msg := msg this; conn := conn this; log := log this ++ [a] |}).

Definition listingMessage (selfIdentBlobs : value) : value :=
  Obj [("type", Str "listing"); ("selfIdentBlobs", selfIdentBlobs)].

Definition scan_phonebook : Step This := fun _ =>
  this <- get ;;
  emit ScanPublicListing ;;
  lift (phonebookScanPublicListing (authApi (serverConfig (conn this)))).

Definition report_results_and_close : Step This := fun selfIdentBlobs =>
  emit (Write (listingMessage selfIdentBlobs)) ;;
  emit CloseConnection ;;
  ret Undefined.

Definition steps : list (Step This) :=
  [scan_phonebook; report_results_and_close].

Definition init (m : value) (c : Conn) : This :=
  {| msg := m; conn := c; log := [] |}.

(** Modelled from the spec: [defineTask], the plain task of
    [rdcommon/taskidiom].  The steps run in order and a failing step is
    fatal to the task. *)
Definition run (m : value) (c : Conn) : TaskResult * This :=
  match run_steps steps Undefined (init m c) with
  | (Continue v, this') => (Resolved v, this')
  | (EarlyReturn v, this') => (Resolved v, this')
  | (Fail e, this') => (Rejected e, this')
  end.

End PhonebookTask.

(** ** A concrete setting

    Stand-ins for the imported modules, to run the tasks on concrete
    bundles: a self-ident blob is its own payload when it is an object; an
    attestation blob is an object naming its [issuer], accepted when the
    issuer is one of the authorized keys; a BrowserID bundle is an object;
    the chain verifier reports an error, synchronously, for the certificate
    list ["expired"], success for ["valid"], and stays silent otherwise;
    numbers are spelled by their digits, which is how integers below 2^53
    are spelled (the bundles used here have strings for keys). *)
Module Demo.

Definition parseSelfIdent (blob : value) (_ : value) : Completion value :=
  match blob with
  | Obj _ => Normal blob
  | _ => Throw MalformedPayloadError
  end.

Definition checkAttestation (blob : value) (kind : string)
    (authorizedKeys : list value) : Completion value :=
  match get_prop blob "issuer" with
  | Normal issuer =>
      if existsb (strict_eq issuer) authorizedKeys then Normal blob
      else Throw (ExternalError "keyops")
  | Throw e => Throw e
  end.

Definition unbundle (assertion : value) : Completion value :=
  match assertion with
  | Obj _ => Normal assertion
  | _ => Throw (ExternalError "vep")
  end.

Definition chain (certs : value) (asOf : Z)
    (rootCB : value -> Completion unit)
    (successCB : value -> value -> Completion unit)
    (errorCB : value -> Completion unit) : Completion unit :=
  if strict_eq_str certs "expired" then errorCB (Str "expired")
  else if strict_eq_str certs "valid"
  then successCB (Str "pk") (Obj [("email", Str "mallory@example.org")])
  else Normal tt.

Definition token (assertion : value) : Completion Token :=
  Normal {| audience := Str "jetpack-extension"; verify := fun _ => true |}.

(** The stand-ins together.  Numbers are spelled in decimal digits, which is
    the runtime's spelling of an integer below 1e21. *)
Definition ext : Externals :=
  {| assertGetPersonSelfIdent := parseSelfIdent;
     assertCheckGetAttestation := checkAttestation;
     unbundleCertsAndAssertion := unbundle;
     verifyChain := chain;
     parseToken := token;
     currentTime := 0;
     numberToString := string_of_Z |}.

(** An empty account store. *)
Definition emptyStore : AuthApi :=
  {| serverCheckUserAccount := fun _ => Normal (Bool false);
     serverCreateUserAccount := fun _ _ _ _ _ => Normal Undefined;
     phonebookScanPublicListing := Normal (Arr []) |}.

(** A store that already holds every account. *)
Definition fullStore : AuthApi :=
  {| serverCheckUserAccount := fun _ => Normal (Bool true);
     serverCreateUserAccount := fun _ _ _ _ _ => Normal Undefined;
     phonebookScanPublicListing := Normal (Arr []) |}.

Definition cfg (api : AuthApi) : ServerConfig :=
  {| selfIdentBlob := "server-blob"; authApi := api |}.

Definition connOf (api : AuthApi) : Conn :=
  {| clientPublicKey := "client-key"; serverConfig := cfg api |}.

Definition identWith (transit : string) (poco : value) : value :=
  Obj [("transitServerIdent", Str transit);
       ("poco", poco);
       ("root", Obj [("rootSignPubKey", Str "root-key");
                     ("longtermSignPubKey", Str "longterm-key")])].

Definition authFor (key : string) : value :=
  Obj [("authorizedKey", Str key); ("issuer", Str "longterm-key")].

Definition bundle (ident : value) (auths : value) (why : value) : Msg :=
  {| selfIdent := ident; clientAuths := auths;
     storeKeyring := Str "keyring"; because := why |}.

Definition alicePoco : value := Obj [("displayName", Str "Alice")].

Definition aliceWithEmails : value :=
  Obj [("displayName", Str "Alice");
       ("emails", Arr [Str "alice@example.org"])].

(** As [aliceWithEmails], and also carrying the singular [email]. *)
Definition aliceWithBoth : value :=
  Obj [("displayName", Str "Alice");
       ("emails", Arr [Str "alice@example.org"]);
       ("email", Arr [Str "alice@example.org"])].

Definition browseridWith (certs : string) : value :=
  Obj [("browserid",
        Obj [("certificates", Str certs); ("assertion", Str "token")])].

(** Globals with everything bound, [problemo] to a value of its own. *)
Definition generous : Globals :=
  {| has_Q := true; has_when := true; has_jwt := true;
     problemo := Some (Str "problemo-value") |}.

(** Globals with the libraries bound and [problemo] unbound. *)
Definition libsOnly : Globals :=
  {| has_Q := true; has_when := true; has_jwt := true; problemo := None |}.

End Demo.

(** Bundles and task objects for the concrete setting. *)
Module Cases.
Import Demo.

(** A bundle that passes validation on the connection [connOf _]: it names
    this server and authorizes the peer's key. *)
Definition wellFormed (poco why : value) : Msg :=
  bundle (identWith "server-blob" poco) (Arr [authFor "client-key"]) why.

(** Alice signing up with nothing to prove. *)
Definition plainSignup : Msg := wellFormed alicePoco (Obj []).

(** Alice, who declares no e-mail address, sending a BrowserID response. *)
Definition signupWithBrowserid : Msg :=
  wellFormed alicePoco (browseridWith "valid").

(** Alice, with one declared address, sending an expired chain. *)
Definition signupWithExpiredChain : Msg :=
  wellFormed aliceWithEmails (browseridWith "expired").

(** A bundle whose only authorization names another client. *)
Definition signupForSomeoneElse : Msg :=
  bundle (identWith "server-blob" alicePoco) (Arr [authFor "other-key"])
    (Obj []).

(** A bundle without client authorizations. *)
Definition signupWithoutAuths : Msg :=
  bundle (identWith "server-blob" alicePoco) Undefined (Obj []).

(** A bundle whose self-ident names another transit server. *)
Definition signupElsewhere : Msg :=
  bundle (identWith "other-server-blob" alicePoco)
    (Arr [authFor "client-key"]) (Obj []).

(** A profile whose [displayName] is the empty string, and one without. *)
Definition signupWithEmptyName : Msg :=
  wellFormed (Obj [("displayName", Str "")]) (Obj []).

Definition signupWithoutName : Msg :=
  wellFormed (Obj [("emails", Arr [Str "alice@example.org"])]) (Obj []).

(** The task object of [ProcessSignupTask] as the challenge stage finds it
    for a validated bundle. *)
Definition atChallengeStage (m : Msg) (poco : value)
  : ProcessSignupTask.This :=
  {| ProcessSignupTask.msg := m;
     ProcessSignupTask.conn := connOf emptyStore;
     ProcessSignupTask.selfIdentPayload := identWith "server-blob" poco;
     ProcessSignupTask.clientAuthsMap :=
       Obj [("client-key", authFor "client-key")];
     ProcessSignupTask.challenges := ["none"; "browserid"];
     ProcessSignupTask.log := [CheckUserAccount (Str "root-key")] |}.

End Cases.

(** * Vocabulary of the properties *)

(** A computation is quiet when it leaves the task object alone and never
    returns early. *)
Definition quiet {S A : Type} (m : M S A) : Prop :=
  forall this,
    snd (m this) = this /\ forall v, fst (m this) <> EarlyReturn v.

(** The task object after a challenge of the given type was written and the
    connection closed. *)
Definition answered (this this' : ProcessSignupTask.This)
    (challengeType : value) : Prop :=
  ProcessSignupTask.log this' =
  (ProcessSignupTask.log this
     ++ [WriteMessage (challengeMessage challengeType); Close])%list.

(** Whether a step outcome lets the task go on to its next step. *)
Definition proceeds {A : Type} (o : Outcome A) : bool :=
  match o with Continue _ => true | _ => false end.

(** Whether a verifier returned the given mechanism as its outcome. *)
Definition reports (o : Outcome VerifierResult) (mechanism : string) : bool :=
  match o with
  | Continue (Plain v) => strict_eq_str v mechanism
  | _ => false
  end.

(** Whether a verifier returned a promise. *)
Definition pends (o : Outcome VerifierResult) : bool :=
  match o with Continue (Pending _) => true | _ => false end.

(** The events the peer can observe. *)
Definition onConnection (e : Event) : bool :=
  match e with
  | WriteMessage _ | Close => true
  | CheckUserAccount _ | CreateUserAccount _ _ _ _ _ => false
  end.

Definition peerView (evs : list Event) : list Event :=
  filter onConnection evs.

Definition isStoreCall (e : Event) : bool := negb (onConnection e).

(** The two kinds of terminal message. *)
Definition terminalMessage (message : value) : Prop :=
  message = signedUpMessage \/
  exists challengeType, message = challengeMessage challengeType.

(** The root signing key a self-ident payload declares. *)
Definition keyOf (payload key : value) : Prop :=
  exists root,
    get_prop payload "root" = Normal root /\
    get_prop root "rootSignPubKey" = Normal key.

Definition neverMessage : value := challengeMessage (Str CHALLENGE_NEVER).

Definition alreadyMessage : value :=
  challengeMessage (Str CHALLENGE_ALREADY_SIGNED_UP).

(** The ways a run of [ProcessSignupTask] can end, with the events it leaves
    behind. *)
Section Endings.
Variable ext : Externals.
Variable g : Globals.
Variable m : Msg.
Variable c : Conn.

Let api := authApi (serverConfig c).

Inductive Ending : TaskResult -> list Event -> Prop :=
| ending_never :
    ValidateSignupRequestTask.run ext m (clientPublicKey c)
      (serverConfig c) = Bool false ->
    Ending (Resolved Undefined) [WriteMessage neverMessage; Close]
| ending_unreadable (e : error) :
    Ending (Rejected e) []
| ending_check_failed (k : value) (e : error) :
    serverCheckUserAccount api k = Throw e ->
    Ending (Rejected e) [CheckUserAccount k]
| ending_already (k v : value) :
    serverCheckUserAccount api k = Normal v -> truthy v = true ->
    Ending (Resolved Undefined)
      [CheckUserAccount k; WriteMessage alreadyMessage; Close]
| ending_gate_failed (k v : value) (e : error) :
    serverCheckUserAccount api k = Normal v -> truthy v = false ->
    Ending (Rejected e) [CheckUserAccount k]
| ending_challenged (k v challengeType : value) :
    serverCheckUserAccount api k = Normal v -> truthy v = false ->
    problemo g = Some challengeType ->
    Ending (Resolved Undefined)
      [CheckUserAccount k; WriteMessage (challengeMessage challengeType);
       Close]
| ending_create_failed (k v p raw am kr info : value) (e : error) :
    serverCheckUserAccount api k = Normal v -> truthy v = false ->
    keyOf p k ->
    Ending (Rejected e)
      [CheckUserAccount k; CreateUserAccount p raw am kr info]
| ending_signed_up (k v p raw am kr info : value) :
    serverCheckUserAccount api k = Normal v -> truthy v = false ->
    keyOf p k ->
    Ending (Resolved Undefined)
      [CheckUserAccount k; CreateUserAccount p raw am kr info;
       WriteMessage signedUpMessage; Close].
End Endings.

(** ** Vocabulary of the further properties *)

(** The authorization blob verifies against the given keys and names the
    given client key. *)
Definition attests (ext : Externals) (keys : list value) (blob key : value)
  : Prop :=
  exists clientAuth,
    assertCheckGetAttestation ext blob "client" keys = Normal clientAuth /\
    get_prop clientAuth "authorizedKey" = Normal key.

(** The same, together with the property name under which the blob is
    filed in [clientAuthsMap]. *)
Definition filedAs (ext : Externals) (keys : list value) (blob : value)
    (name : string) : Prop :=
  exists key,
    attests ext keys blob key /\
    to_js_string (numberToString ext) key = Normal name.

(** The valid bits the validation task resolves with. *)
Definition validBits (payload authsMap : value) : value :=
  Obj [("selfIdentPayload", payload); ("clientAuthsMap", authsMap)].

(** [hay] holds [needle] somewhere. *)
Definition occursIn (needle hay : string) : Prop :=
  exists before after, hay = before ++ needle ++ after.

(** The course of a run of [ProcessSignupTask]: how it ended and the events
    it left, with what each stage found. *)
Section Courses.
Variable ext : Externals.
Variable g : Globals.
Variable m : Msg.
Variable c : Conn.

Definition validatedAs (payload authsMap : value) : Prop :=
  ValidateSignupRequestTask.run ext m (clientPublicKey c) (serverConfig c)
  = validBits payload authsMap.

(** The task object as the challenge step finds it. *)
Definition atGate (payload authsMap key : value) : ProcessSignupTask.This :=
  {| ProcessSignupTask.msg := m;
     ProcessSignupTask.conn := c;
     ProcessSignupTask.selfIdentPayload := payload;
     ProcessSignupTask.clientAuthsMap := authsMap;
     ProcessSignupTask.challenges := ["none"; "browserid"];
     ProcessSignupTask.log := [CheckUserAccount key] |}.

Definition gateOutcome (payload authsMap key : value) : Outcome value :=
  fst (ProcessSignupTask.checkOrGenerateChallenge ext g Undefined
         (atGate payload authsMap key)).

Definition storeCheck (key : value) : Completion value :=
  serverCheckUserAccount (authApi (serverConfig c)) key.

(** The call [doTheSignup] makes for a payload whose profile shows the
    given [displayName]. *)
Definition creationEvent (payload authsMap displayName : value) : Event :=
  CreateUserAccount payload (selfIdent m) authsMap (storeKeyring m)
    (Obj [("displayName", displayName)]).

Definition storeCreate (payload authsMap displayName : value)
  : Completion value :=
  serverCreateUserAccount (authApi (serverConfig c))
    payload (selfIdent m) authsMap (storeKeyring m)
    (Obj [("displayName", displayName)]).

Definition displayNameOf (payload displayName : value) : Prop :=
  exists poco,
    get_prop payload "poco" = Normal poco /\
    get_prop poco "displayName" = Normal displayName.

Inductive Course : TaskResult -> list Event -> Prop :=
| course_invalid :
    ValidateSignupRequestTask.run ext m (clientPublicKey c) (serverConfig c)
      = Bool false ->
    Course (Resolved Undefined) [WriteMessage neverMessage; Close]
| course_no_key (p am : value) (e : error) :
    validatedAs p am ->
    (forall k, ~ keyOf p k) ->
    Course (Rejected e) []
| course_check_failed (p am k : value) (e : error) :
    validatedAs p am -> keyOf p k ->
    storeCheck k = Throw e ->
    Course (Rejected e) [CheckUserAccount k]
| course_already (p am k v : value) :
    validatedAs p am -> keyOf p k ->
    storeCheck k = Normal v -> truthy v = true ->
    Course (Resolved Undefined)
      [CheckUserAccount k; WriteMessage alreadyMessage; Close]
| course_gate_failed (p am k v : value) (e : error) :
    validatedAs p am -> keyOf p k ->
    storeCheck k = Normal v -> truthy v = false ->
    gateOutcome p am k = Fail e ->
    Course (Rejected e) [CheckUserAccount k]
| course_challenged (p am k v challengeType : value) :
    validatedAs p am -> keyOf p k ->
    storeCheck k = Normal v -> truthy v = false ->
    gateOutcome p am k = EarlyReturn Undefined ->
    problemo g = Some challengeType ->
    Course (Resolved Undefined)
      [CheckUserAccount k; WriteMessage (challengeMessage challengeType);
       Close]
| course_no_profile (p am k v : value) (e : error) :
    validatedAs p am -> keyOf p k ->
    storeCheck k = Normal v -> truthy v = false ->
    proceeds (gateOutcome p am k) = true ->
    (forall dn, ~ displayNameOf p dn) ->
    Course (Rejected e) [CheckUserAccount k]
| course_create_failed (p am k v dn : value) (e : error) :
    validatedAs p am -> keyOf p k ->
    storeCheck k = Normal v -> truthy v = false ->
    proceeds (gateOutcome p am k) = true ->
    displayNameOf p dn ->
    storeCreate p am dn = Throw e ->
    Course (Rejected e) [CheckUserAccount k; creationEvent p am dn]
| course_signed_up (p am k v dn created : value) :
    validatedAs p am -> keyOf p k ->
    storeCheck k = Normal v -> truthy v = false ->
    proceeds (gateOutcome p am k) = true ->
    displayNameOf p dn ->
    storeCreate p am dn = Normal created ->
    Course (Resolved Undefined)
      [CheckUserAccount k; creationEvent p am dn;
       WriteMessage signedUpMessage; Close].
End Courses.

(** What a successful validation has established about the bundle: the
    self-ident parsed, names this server and shows a [displayName]; the
    authorizations are a non-empty array, each verified against the
    identity's long-term signing key, one of them naming the peer; and the
    own properties of the map are blobs of the bundle, each under the name
    of the key it authorizes, with one property for every such name other
    than [__proto__], an assignment to which reaches the prototype's setter
    as long as the map's prototype chain has one. *)
Definition Established (ext : Externals) (m : Msg) (peer : string)
    (cfg : ServerConfig) (payload : value) (map : list (string * value))
  : Prop :=
  assertGetPersonSelfIdent ext (selfIdent m) Null = Normal payload /\
  get_prop payload "transitServerIdent" = Normal (Str (selfIdentBlob cfg)) /\
  (exists poco,
      get_prop payload "poco" = Normal poco /\
      has_own_property poco "displayName" = Normal true) /\
  exists blobs root longterm,
    clientAuths m = Arr blobs /\
    blobs <> [] /\
    get_prop payload "root" = Normal root /\
    get_prop root "longtermSignPubKey" = Normal longterm /\
    Forall (fun blob => exists name, filedAs ext [longterm] blob name)
      blobs /\
    Exists (fun blob => attests ext [longterm] blob (Str peer)) blobs /\
    (forall n b, assoc n map = Some b ->
                 In b blobs /\ filedAs ext [longterm] b n) /\
    (forall n, n <> "__proto__" ->
               (has_key n map = true <->
                Exists (fun b => filedAs ext [longterm] b n) blobs)).

(** Stores that fail, for the concrete setting. *)
Module Faults.

(** A store whose existence check fails. *)
Definition unreachableStore : AuthApi :=
  {| serverCheckUserAccount := fun _ => Throw (ExternalError "store");
     serverCreateUserAccount := fun _ _ _ _ _ => Normal Undefined;
     phonebookScanPublicListing := Throw (ExternalError "store") |}.

(** A store that knows no account and cannot create one. *)
Definition readOnlyStore : AuthApi :=
  {| serverCheckUserAccount := fun _ => Normal (Bool false);
     serverCreateUserAccount :=
       fun _ _ _ _ _ => Throw (ExternalError "store");
     phonebookScanPublicListing := Normal (Arr []) |}.

(** A store with two listed identities. *)
Definition listedStore : AuthApi :=
  {| serverCheckUserAccount := fun _ => Normal (Bool false);
     serverCreateUserAccount := fun _ _ _ _ _ => Normal Undefined;
     phonebookScanPublicListing :=
       Normal (Arr [Str "alice-blob"; Str "bob-blob"]) |}.

(** A bundle with two authorizations, the second one forged. *)
Definition forgedAuth : value :=
  Obj [("authorizedKey", Str "other-key"); ("issuer", Str "mallory-key")].

Definition signupWithForgedAuth : Msg :=
  Demo.bundle (Demo.identWith "server-blob" Demo.alicePoco)
    (Arr [Demo.authFor "client-key"; forgedAuth]) (Obj []).

(** A bundle with two good authorizations. *)
Definition signupWithTwoClients : Msg :=
  Demo.bundle (Demo.identWith "server-blob" Demo.alicePoco)
    (Arr [Demo.authFor "other-key"; Demo.authFor "client-key"]) (Obj []).

(** A BrowserID response whose chain verifies, for the principal
    [mallory@example.org], and the task object at the challenge stage of
    Alice's signup with it. *)
Definition verifiedForMallory : value :=
  Obj [("certificates", Str "valid"); ("assertion", Str "token")].

Definition aliceWithMallorysChain : ProcessSignupTask.This :=
  Cases.atChallengeStage
    (Cases.wellFormed Demo.aliceWithBoth (Demo.browseridWith "valid"))
    Demo.aliceWithBoth.

(** A bundle whose [because] names kinds the server does not know. *)
Definition signupWithUnknownKinds : Msg :=
  Cases.wellFormed Demo.alicePoco
    (Obj [("captcha", Str "xyzzy"); ("invite", Str "from-bob")]).

End Faults.

(** * Properties *)

(** ** Reasoning about steps *)

(** Split on the scrutinee of the first [match] in the goal that is not
    itself a [match]. *)
Ltac split_scrutinee :=
  match goal with
  | |- context [match ?x with _ => _ end] =>
      lazymatch x with
      | context [match _ with _ => _ end] => fail
      | _ => destruct x eqn:?
      end
  end.

Ltac unfold_task :=
  unfold bind, lift, ret, get, put, throw, earlyReturn in *.

Section Quiet.
Context {S : Type}.

Lemma quiet_ret {A} (a : A) : quiet (S := S) (ret a).
Proof. intro this; split; [reflexivity | discriminate]. Qed.

Lemma quiet_throw {A} (e : error) : quiet (throw (S := S) (A := A) e).
Proof. intro this; split; [reflexivity | discriminate]. Qed.

Lemma quiet_get : quiet (get (S := S)).
Proof. intro this; split; [reflexivity | discriminate]. Qed.

Lemma quiet_lift {A} (c : Completion A) : quiet (lift (S := S) c).
Proof.
  intro this; unfold lift; destruct c; split;
    try reflexivity; discriminate.
Qed.

Lemma quiet_bind {A B} (m : M S A) (k : A -> M S B) :
  quiet m -> (forall a, quiet (k a)) -> quiet (bind m k).
Proof.
  intros Hm Hk this. unfold bind.
  destruct (Hm this) as [Hs Hf].
  destruct (m this) as [[a | v | e] this1]; simpl in *; subst.
  - apply Hk.
  - exfalso; eapply Hf; reflexivity.
  - split; [reflexivity | discriminate].
Qed.

(** What a quiet computation returns, when what it does not depend on the
    task object beyond reading it. *)
Lemma quiet_cases {A} (m : M S A) (this : S) :
  quiet m ->
  (exists a, m this = (Continue a, this)) \/
  (exists e, m this = (Fail e, this)).
Proof.
  intro Hm. destruct (Hm this) as [Hs Hf].
  destruct (m this) as [[a | v | e] this1]; simpl in *; subst.
  - left; eauto.
  - exfalso; eapply Hf; reflexivity.
  - right; eauto.
Qed.
End Quiet.

Ltac quiet_step :=
  first
    [ apply quiet_bind; [| intros ?]
    | apply quiet_ret | apply quiet_throw | apply quiet_get
    | apply quiet_lift
    | match goal with
      | |- quiet (if ?b then _ else _) => destruct b
      | |- quiet (match ?c with _ => _ end) => destruct c
      end ].

(** ** The BrowserID verifier *)

Section Verifier.
Variable ext : Externals.
Variable g : Globals.

Import ProcessSignupTask.

Lemma verifyBrowserId_quiet (assertion : value) :
  quiet (verifyBrowserId ext g assertion).
Proof. unfold verifyBrowserId. repeat quiet_step. Qed.

(** No path through the error callback settles anything: [deferred] is
    the function [$Q.defer], which has no [resolve]. *)
Lemma errorCB_throws (err : value) :
  errorCB DeferFunction err = Throw TypeError.
Proof. reflexivity. Qed.

(** Nor does any path through the success callback. *)
Lemma successCB_throws (bundle claimed pk principal : value) :
  exists e, successCB ext g DeferFunction bundle claimed pk principal
            = Throw e.
Proof.
  unfold successCB, cbind, deferred_resolve.
  repeat split_scrutinee; eauto.
Qed.

(** The values the verifier can return. *)
Lemma verifyBrowserId_returns (assertion : value) (this : This) :
  match fst (verifyBrowserId ext g assertion this) with
  | Continue (Plain v) =>
      v = Str CHALLENGE_INVALID_BROWSERID \/ v = Undefined
  | Continue (Pending _) => False
  | EarlyReturn _ => False
  | Fail _ => True
  end.
Proof.
  unfold verifyBrowserId. unfold_task.
  repeat (split_scrutinee; simpl; auto).
Qed.
End Verifier.

(** ** The challenge gate *)

Section Gate.
Variable ext : Externals.
Variable g : Globals.

Import ProcessSignupTask.

Lemma respondWithChallenge_answers {A} (challengeType : value)
    (this : This) :
  exists this',
    respondWithChallenge (A := A) challengeType this
      = (EarlyReturn Undefined, this') /\
    answered this this' challengeType.
Proof.
  eexists; split; [reflexivity |].
  unfold answered; simpl. rewrite <- app_assoc. reflexivity.
Qed.

Lemma challengeSwitch_quiet (name : string) :
  quiet (challengeSwitch ext g name).
Proof.
  unfold challengeSwitch.
  apply quiet_bind; [apply quiet_get | intros this].
  destruct (String.eqb name "browserid").
  - apply quiet_bind; [apply quiet_lift | intros a].
    apply verifyBrowserId_quiet.
  - destruct (String.eqb name "none");
      [apply quiet_ret | apply quiet_throw].
Qed.

(** The switch never leaves a promise in [result]. *)
Lemma challengeSwitch_plain (name : string) (this this' : This)
    (r : VerifierResult) :
  challengeSwitch ext g name this = (Continue r, this') ->
  exists v, r = Plain v.
Proof.
  unfold challengeSwitch. unfold_task.
  destruct (String.eqb name "browserid").
  - destruct (get_prop (because (msg this)) name) as [a | e];
      [| discriminate].
    intro H.
    pose proof (verifyBrowserId_returns ext g a this) as R.
    rewrite H in R; simpl in R.
    destruct r as [v | p]; [eauto | contradiction].
  - destruct (String.eqb name "none"); [| discriminate].
    intro H; inversion H; eauto.
Qed.

(** The loop pushes no promise, and when it answers the peer the
    challenge type is whatever the global [problemo] holds. *)
Lemma challengeLoop_spec (names : list string) :
  forall (promises : list Promise) (this : This),
    match challengeLoop ext g names promises this with
    | (Continue ps, this') => this' = this /\ ps = promises
    | (Fail _, this') => this' = this
    | (EarlyReturn v, this') =>
        v = Undefined /\
        exists c, problemo g = Some c /\ answered this this' c
    end.
Proof.
  induction names as [| name rest IH]; intros promises this.
  - simpl. auto.
  - simpl. unfold bind at 1. unfold get at 1.
    destruct (negb (indexOf_found (challenges this) name)); [apply IH |].
    unfold bind at 1.
    destruct (quiet_cases (challengeSwitch ext g name) this
                (challengeSwitch_quiet name)) as [[r Hr] | [e He]].
    + rewrite Hr.
      destruct (challengeSwitch_plain _ _ _ _ Hr) as [v ->].
      unfold bind at 1, lift at 1, lookup_global.
      destruct (has_Q g); [| reflexivity].
      destruct (truthy v); [| apply IH].
      destruct (problemo g) as [c |] eqn:P; [| reflexivity].
      destruct (respondWithChallenge_answers (A := list Promise) c this)
        as (this' & -> & Ha).
      split; [reflexivity |]. exists c. auto.
    + rewrite He. reflexivity.
Qed.

(** Names that the catalog does not list are skipped. *)
Lemma challengeLoop_skips_unsupported (names : list string) :
  forall (promises : list Promise) (this : This),
    (forall name, In name names ->
                  indexOf_found (challenges this) name = false) ->
    challengeLoop ext g names promises this = (Continue promises, this).
Proof.
  induction names as [| name rest IH]; intros promises this Hnone.
  - reflexivity.
  - simpl. unfold bind at 1, get at 1.
    rewrite (Hnone name (or_introl eq_refl)). simpl.
    apply IH. intros n Hn. apply Hnone. right; exact Hn.
Qed.

Lemma checkOrGenerateChallenge_spec (arg : value) (this : This) :
  match checkOrGenerateChallenge ext g arg this with
  | (Continue _, this') => this' = this
  | (Fail _, this') => this' = this
  | (EarlyReturn v, this') =>
      v = Undefined /\
      exists c, problemo g = Some c /\ answered this this' c
  end.
Proof.
  unfold checkOrGenerateChallenge.
  unfold bind at 1, get at 1. unfold bind at 1.
  pose proof (challengeLoop_spec (for_in_keys (because (msg this)))
                [] this) as L.
  destruct (challengeLoop ext g (for_in_keys (because (msg this))) [] this)
    as [[ps | v | e] this'].
  - destruct L as [-> ->]. reflexivity.
  - exact L.
  - exact L.
Qed.
End Gate.

(** A property read can only fail with a [TypeError]. *)
Lemma get_prop_throws (v : value) (k : string) (e : error) :
  get_prop v k = Throw e -> e = TypeError.
Proof.
  destruct v; simpl; repeat split_scrutinee; intro H;
    try discriminate; inversion H; reflexivity.
Qed.

(** ** The validation task *)

Section Validation.
Variable ext : Externals.

Import ValidateSignupRequestTask.

(** The soft-failure wrapper turns every failure of the two steps into
    [false] and passes a success through. *)
Lemma validation_of_raw (m : Msg) (peer : string) (cfg : ServerConfig) :
  run ext m peer cfg =
  match raw ext m peer cfg with
  | Continue v | EarlyReturn v => v
  | Fail _ => Bool false
  end.
Proof.
  unfold run, raw, runSoftFailureTask.
  destruct (run_steps (steps ext) Undefined (init m peer cfg))
    as [[v | v | e] this']; reflexivity.
Qed.

Lemma raw_failure_is_soft (m : Msg) (peer : string) (cfg : ServerConfig)
    (e : error) :
  raw ext m peer cfg = Fail e -> run ext m peer cfg = Bool false.
Proof. intro H. rewrite validation_of_raw, H. reflexivity. Qed.

(** What the task resolves with: [false], or the valid bits. *)
Lemma validation_shape (m : Msg) (peer : string) (cfg : ServerConfig) :
  run ext m peer cfg = Bool false \/
  exists payload authsMap,
    run ext m peer cfg =
    Obj [("selfIdentPayload", payload); ("clientAuthsMap", Obj authsMap)].
Proof.
  rewrite validation_of_raw. unfold raw, steps. simpl run_steps.
  unfold validateSelfIdent, validateClientAuth. unfold_task. simpl.
  repeat (split_scrutinee; simpl; auto).
  right. eauto.
Qed.

(** A self-ident that names another transit server fails the first step
    with a key mismatch. *)
Lemma foreign_transit_raises (m : Msg) (peer : string)
    (cfg : ServerConfig) (p transit : value) :
  assertGetPersonSelfIdent ext (selfIdent m) Null = Normal p ->
  get_prop p "transitServerIdent" = Normal transit ->
  strict_eq_str transit (selfIdentBlob cfg) = false ->
  raw ext m peer cfg = Fail KeyMismatchError.
Proof.
  intros Hp Ht Hne. unfold raw, steps. simpl run_steps.
  unfold validateSelfIdent. unfold_task. simpl.
  rewrite Hp. simpl. rewrite Ht. simpl. rewrite Hne. reflexivity.
Qed.

(** A poco without an own [displayName] fails the first step: as a
    malformed payload when the self-ident names this server, as a key
    mismatch when it does not. *)
Lemma missing_displayName_raises (m : Msg) (peer : string)
    (cfg : ServerConfig) (p transit poco : value) :
  assertGetPersonSelfIdent ext (selfIdent m) Null = Normal p ->
  get_prop p "transitServerIdent" = Normal transit ->
  get_prop p "poco" = Normal poco ->
  has_own_property poco "displayName" = Normal false ->
  raw ext m peer cfg =
  if strict_eq_str transit (selfIdentBlob cfg)
  then Fail MalformedPayloadError
  else Fail KeyMismatchError.
Proof.
  intros Hp Ht Hpoco Hhas. unfold raw, steps. simpl run_steps.
  unfold validateSelfIdent. unfold_task. simpl.
  rewrite Hp. simpl. rewrite Ht. simpl.
  destruct (strict_eq_str transit (selfIdentBlob cfg)); simpl; auto.
  rewrite Hpoco. simpl. rewrite Hhas. reflexivity.
Qed.

(** When no authorization names the peer, the loop ends without having
    found it, if it ends at all. *)
Lemma checkClientAuths_not_found (keys : list value) (peer : string)
    (blobs : list value) :
  Forall (fun blob =>
            exists clientAuth key,
              assertCheckGetAttestation ext blob "client" keys
                = Normal clientAuth /\
              get_prop clientAuth "authorizedKey" = Normal key /\
              strict_eq_str key peer = false) blobs ->
  forall map,
    match checkClientAuths ext keys peer blobs false map with
    | Normal (found, _) => found = false
    | Throw _ => True
    end.
Proof.
  induction 1 as [| blob rest (ca & key & Hca & Hkey & Hne) _ IH];
    intro map; simpl.
  - reflexivity.
  - rewrite Hca. simpl. rewrite Hkey. simpl.
    destruct (to_js_string (numberToString ext) key) as [name | e]; simpl;
      [| exact I].
    rewrite Hne. apply IH.
Qed.
End Validation.

(** ** The whole run *)

Section Run.
Variable ext : Externals.
Variable g : Globals.
Variable m : Msg.
Variable c : Conn.

Import ProcessSignupTask.

Ltac ended E := intro E; inversion E; subst; simpl.

(** Every run ends in one of the ways listed by [Ending]. *)
Lemma run_ending (r : TaskResult) (this' : This) :
  run ext g m c = (r, this') -> Ending ext g m c r (log this').
Proof.
  unfold run, runEarlyReturnTask, steps. simpl run_steps.
  unfold validateSignupRequest at 1.
  unfold bind at 1. unfold bind at 1, get at 1, ret at 1. simpl.
  unfold bind at 1. unfold dealWithInvalidRequest at 1.
  destruct (validation_shape ext m (clientPublicKey c) (serverConfig c))
    as [V | (p & am & V)]; rewrite V; simpl.
  - ended E. constructor. exact V.
  - unfold bind at 1. unfold checkForExistingAccount at 1.
    unfold bind at 1, get at 1. unfold bind at 1, lift at 1.
    simpl selfIdentPayload.
    destruct (get_prop p "root") as [root | e] eqn:Hroot;
      [| ended E; constructor].
    unfold bind at 1, lift at 1.
    destruct (get_prop root "rootSignPubKey") as [k | e] eqn:Hk;
      [| ended E; constructor].
    unfold bind at 1, emit at 1. simpl. unfold lift at 1.
    destruct (serverCheckUserAccount (authApi (serverConfig c)) k)
      as [v | e] eqn:Hcheck;
      [| ended E; constructor; exact Hcheck].
    unfold bind at 1. unfold verifyNoExistingAccount at 1.
    destruct (truthy v) eqn:Hv.
    + simpl. ended E. eapply ending_already; eauto.
    + unfold ret at 1. unfold bind at 1. unfold determineChallenges at 1.
      unfold bind at 1, set_challenges at 1. simpl. unfold ret at 1.
      unfold bind at 1.
      match goal with
      | |- context [checkOrGenerateChallenge ext g ?a ?t] =>
          pose proof (checkOrGenerateChallenge_spec ext g a t) as G;
          destruct (checkOrGenerateChallenge ext g a t)
            as [[x | x | e] this6]
      end.
      * subst this6. unfold bind at 1. unfold doTheSignup at 1.
        unfold bind at 1, get at 1. unfold bind at 1, lift at 1.
        simpl selfIdentPayload.
        destruct (get_prop p "poco") as [poco | e] eqn:Hpoco;
          [| ended E; eapply ending_gate_failed; eauto].
        unfold bind at 1, lift at 1.
        destruct (get_prop poco "displayName") as [dn | e] eqn:Hdn;
          [| ended E; eapply ending_gate_failed; eauto].
        unfold bind at 1, emit at 1. simpl. unfold lift at 1.
        match goal with
        | |- context [serverCreateUserAccount ?a ?b ?c ?d ?e ?f] =>
            destruct (serverCreateUserAccount a b c d e f)
              as [created | e'] eqn:Hcreate
        end.
        -- simpl. ended E. eapply ending_signed_up; eauto.
           exists root; auto.
        -- ended E. eapply ending_create_failed; eauto.
           exists root; auto.
      * destruct G as (-> & ct & P & A). unfold answered in A.
        simpl in A. ended E. rewrite A.
        eapply ending_challenged; eauto.
      * subst this6. ended E. eapply ending_gate_failed; eauto.
Qed.

(** A request that did not validate gets the [never] challenge, and
    nothing else happens. *)
Lemma invalid_request_gets_never :
  truthy (ValidateSignupRequestTask.run ext m (clientPublicKey c)
            (serverConfig c)) = false ->
  exists this',
    run ext g m c = (Resolved Undefined, this') /\
    log this' = [WriteMessage neverMessage; Close].
Proof.
  intro H. unfold run, runEarlyReturnTask, steps. simpl run_steps.
  unfold validateSignupRequest at 1.
  unfold bind at 1. unfold bind at 1, get at 1, ret at 1. simpl.
  unfold bind at 1. unfold dealWithInvalidRequest at 1.
  rewrite H. simpl. eexists; split; reflexivity.
Qed.
End Run.

(** ** The course of a run *)

Section FullRun.
Variable ext : Externals.
Variable g : Globals.
Variable m : Msg.
Variable c : Conn.

Import ProcessSignupTask.

Ltac closed E := intro E; inversion E; subst; simpl.

Lemma no_key_of (p : value) :
  (exists e, get_prop p "root" = Throw e) \/
  (exists root e, get_prop p "root" = Normal root /\
                  get_prop root "rootSignPubKey" = Throw e) ->
  forall k, ~ keyOf p k.
Proof.
  intros [[e H] | (root & e & H1 & H2)] k (root' & K1 & K2).
  - rewrite H in K1; discriminate.
  - rewrite H1 in K1; inversion K1; subst.
    rewrite H2 in K2; discriminate.
Qed.

Lemma no_displayName_of (p : value) :
  (exists e, get_prop p "poco" = Throw e) \/
  (exists poco e, get_prop p "poco" = Normal poco /\
                  get_prop poco "displayName" = Throw e) ->
  forall dn, ~ displayNameOf p dn.
Proof.
  intros [[e H] | (poco & e & H1 & H2)] dn (poco' & K1 & K2).
  - rewrite H in K1; discriminate.
  - rewrite H1 in K1; inversion K1; subst.
    rewrite H2 in K2; discriminate.
Qed.

(** Every run follows one of the courses of [Course]. *)
Lemma run_course (r : TaskResult) (this' : This) :
  run ext g m c = (r, this') -> Course ext g m c r (log this').
Proof.
  unfold run, runEarlyReturnTask, steps. simpl run_steps.
  unfold validateSignupRequest at 1.
  unfold bind at 1. unfold bind at 1, get at 1, ret at 1. simpl.
  unfold bind at 1. unfold dealWithInvalidRequest at 1.
  destruct (validation_shape ext m (clientPublicKey c) (serverConfig c))
    as [V | (p & am & V)]; rewrite V; simpl.
  - closed E. constructor. exact V.
  - unfold bind at 1. unfold checkForExistingAccount at 1.
    unfold bind at 1, get at 1. unfold bind at 1, lift at 1.
    simpl selfIdentPayload.
    destruct (get_prop p "root") as [root | e] eqn:Hroot.
    2:{ closed E. eapply course_no_key; [exact V |].
        apply no_key_of. left; eauto. }
    unfold bind at 1, lift at 1.
    destruct (get_prop root "rootSignPubKey") as [k | e] eqn:Hk.
    2:{ closed E. eapply course_no_key; [exact V |].
        apply no_key_of. right; eauto. }
    assert (K : keyOf p k) by (exists root; auto).
    unfold bind at 1, emit at 1. simpl. unfold lift at 1.
    destruct (serverCheckUserAccount (authApi (serverConfig c)) k)
      as [v | e] eqn:Hcheck.
    2:{ closed E. eapply course_check_failed; eauto. }
    unfold bind at 1. unfold verifyNoExistingAccount at 1.
    destruct (truthy v) eqn:Hv.
    + simpl. closed E. eapply course_already; eauto.
    + unfold ret at 1. unfold bind at 1. unfold determineChallenges at 1.
      unfold bind at 1, set_challenges at 1. simpl. unfold ret at 1.
      unfold bind at 1.
      change {| msg := m; conn := c; selfIdentPayload := p;
                clientAuthsMap := Obj am;
                challenges := ["none"; "browserid"];
                log := [CheckUserAccount k] |}
        with (atGate m c p (Obj am) k).
      pose proof (checkOrGenerateChallenge_spec ext g Undefined
                    (atGate m c p (Obj am) k)) as G.
      assert (O : gateOutcome ext g m c p (Obj am) k
                  = fst (checkOrGenerateChallenge ext g Undefined
                           (atGate m c p (Obj am) k))) by reflexivity.
      destruct (checkOrGenerateChallenge ext g Undefined
                  (atGate m c p (Obj am) k)) as [[x | x | e] this6];
        simpl in O.
      * subst this6. unfold bind at 1. unfold doTheSignup at 1.
        unfold bind at 1, get at 1. unfold bind at 1, lift at 1.
        simpl selfIdentPayload.
        assert (P : proceeds (gateOutcome ext g m c p (Obj am) k) = true)
          by (rewrite O; reflexivity).
        destruct (get_prop p "poco") as [poco | e] eqn:Hpoco.
        2:{ closed E. eapply course_no_profile; eauto.
            apply no_displayName_of. left; eauto. }
        unfold bind at 1, lift at 1.
        destruct (get_prop poco "displayName") as [dn | e] eqn:Hdn.
        2:{ closed E. eapply course_no_profile; eauto.
            apply no_displayName_of. right; eauto. }
        assert (D : displayNameOf p dn) by (exists poco; auto).
        unfold bind at 1, emit at 1. simpl. unfold lift at 1.
        destruct (serverCreateUserAccount (authApi (serverConfig c)) p
                    (selfIdent m) (Obj am) (storeKeyring m)
                    (Obj [("displayName", dn)]))
          as [created | e'] eqn:Hcreate.
        -- simpl. closed E. eapply course_signed_up; eauto.
        -- closed E. eapply course_create_failed; eauto.
      * destruct G as (-> & ct & P & A). unfold answered in A.
        simpl in A. closed E. rewrite A.
        eapply course_challenged; eauto.
      * subst this6. closed E. eapply course_gate_failed; eauto.
Qed.
End FullRun.

(** ** Objects and property reads *)

Lemma assoc_put_own (fs : list (string * value)) (k n : string)
    (v : value) :
  assoc n (put_own fs k v) = if String.eqb n k then Some v else assoc n fs.
Proof.
  induction fs as [| [k' v'] rest IH]; simpl.
  - destruct (String.eqb n k); reflexivity.
  - destruct (String.eqb k k') eqn:Ekk'; simpl.
    + apply String.eqb_eq in Ekk'. subst k'.
      destruct (String.eqb n k); reflexivity.
    + destruct (String.eqb n k') eqn:Enk'.
      * apply String.eqb_eq in Enk'. subst k'.
        rewrite String.eqb_sym, Ekk'. reflexivity.
      * exact IH.
Qed.

(** An assignment files the value under its name, or, under the name
    [__proto__], may leave the own properties as they are. *)
Lemma members_obj_set (o : Literal) (k : string) (v : value) :
  members (obj_set o k v) = put_own (members o) k v \/
  (k = "__proto__" /\ members (obj_set o k v) = members o).
Proof.
  unfold obj_set.
  destruct (String.eqb k "__proto__") eqn:E; simpl.
  - apply String.eqb_eq in E.
    destruct (reaches_proto_accessor (prototype o)); simpl.
    + right. split; [exact E |]. destruct v; reflexivity.
    + left. reflexivity.
  - left. reflexivity.
Qed.

Lemma members_obj_set_plain (o : Literal) (k : string) (v : value) :
  k <> "__proto__" -> members (obj_set o k v) = put_own (members o) k v.
Proof.
  intro Hk. destruct (members_obj_set o k v) as [H | [H _]];
    [exact H | contradiction].
Qed.

Lemma strict_eq_str_true (v : value) (s : string) :
  strict_eq_str v s = true -> v = Str s.
Proof.
  destruct v; simpl; try discriminate.
  intro H. apply String.eqb_eq in H. subst. reflexivity.
Qed.

(** A value that one property could be read from can be read at any
    name. *)
Lemma get_prop_readable (v x : value) (k k' : string) :
  get_prop v k = Normal x -> exists y, get_prop v k' = Normal y.
Proof.
  destruct v; simpl; try discriminate; intros _;
    repeat split_scrutinee; eauto.
Qed.

Lemma has_own_property_readable (v : value) (b : bool) (k k' : string) :
  has_own_property v k = Normal b -> exists y, get_prop v k' = Normal y.
Proof.
  destruct v; simpl; try discriminate; intros _;
    repeat split_scrutinee; eauto.
Qed.

(** ** What validation establishes *)

Section ValidationFacts.
Variable ext : Externals.

Import ValidateSignupRequestTask.

(** The loop over the authorizations, when it completes: every blob was
    verified and filed, the peer was found exactly when some blob names it,
    every own property the map gained holds a blob of that name, and it
    gained one for every name other than [__proto__]. *)
Lemma checkClientAuths_completes (keys : list value) (peer : string)
    (blobs : list value) :
  forall found map found' map',
    checkClientAuths ext keys peer blobs found map = Normal (found', map') ->
    Forall (fun blob => exists name, filedAs ext keys blob name) blobs /\
    (found' = true <->
     found = true \/
     Exists (fun blob => attests ext keys blob (Str peer)) blobs) /\
    (forall n b, assoc n (members map') = Some b ->
                 assoc n (members map) = Some b \/
                 (In b blobs /\ filedAs ext keys b n)) /\
    (forall n, n <> "__proto__" ->
               (has_key n (members map') = true <->
                has_key n (members map) = true \/
                Exists (fun b => filedAs ext keys b n) blobs)).
Proof.
  induction blobs as [| blob rest IH]; intros found map found' map'; simpl.
  - intro H; inversion H; subst. repeat split; auto.
    + intros [F | E]; [exact F | inversion E].
    + intros [F | E]; [exact F | inversion E].
  - destruct (assertCheckGetAttestation ext blob "client" keys)
      as [ca |] eqn:Hca; simpl; [| discriminate].
    destruct (get_prop ca "authorizedKey") as [key |] eqn:Hkey; simpl;
      [| discriminate].
    destruct (to_js_string (numberToString ext) key) as [name |] eqn:Hname;
      simpl; [| discriminate].
    intro H. apply IH in H. destruct H as (HF & Hfound & Hentries & Hkeys).
    assert (A : attests ext keys blob key) by (exists ca; auto).
    assert (Fi : filedAs ext keys blob name) by (exists key; auto).
    split; [| split; [| split]].
    + constructor; [exists name; exact Fi | exact HF].
    + split.
      * intro F. apply Hfound in F. destruct F as [F | E].
        -- destruct (strict_eq_str key peer) eqn:Hp.
           ++ right. left. apply strict_eq_str_true in Hp. subst key.
              exact A.
           ++ left. exact F.
        -- right. right. exact E.
      * intros [F | E].
        -- apply Hfound. left. subst found.
           destruct (strict_eq_str key peer); reflexivity.
        -- inversion E as [b l (ca' & Hca' & Hkey') | b l E']; subst.
           ++ apply Hfound. left.
              rewrite Hca in Hca'. inversion Hca'; subst ca'.
              rewrite Hkey in Hkey'. inversion Hkey'; subst key.
              simpl. rewrite String.eqb_refl. reflexivity.
           ++ apply Hfound. right. exact E'.
    + intros n b Hn. apply Hentries in Hn. destruct Hn as [Hn | [Hin Hf]].
      * destruct (members_obj_set map name blob) as [M | [_ M]];
          rewrite M in Hn.
        -- rewrite assoc_put_own in Hn.
           destruct (String.eqb n name) eqn:En.
           ++ apply String.eqb_eq in En. subst n. inversion Hn; subst b.
              right. split; [left; reflexivity | exact Fi].
           ++ left. exact Hn.
        -- left. exact Hn.
      * right. split; [right; exact Hin | exact Hf].
    + intros n Hproto. split.
      * intro Hn. apply (Hkeys n Hproto) in Hn. destruct Hn as [Hn | E].
        -- destruct (members_obj_set map name blob) as [M | [_ M]];
             rewrite M in Hn.
           ++ unfold has_key in Hn. rewrite assoc_put_own in Hn.
              destruct (String.eqb n name) eqn:En.
              ** apply String.eqb_eq in En. subst n. right. left. exact Fi.
              ** left. exact Hn.
           ++ left. exact Hn.
        -- right. right. exact E.
      * intros [Hn | E]; apply (Hkeys n Hproto).
        -- left. destruct (members_obj_set map name blob) as [M | [_ M]];
             rewrite M; [| exact Hn].
           unfold has_key. rewrite assoc_put_own.
           destruct (String.eqb n name); [reflexivity | exact Hn].
        -- inversion E
             as [b l (key' & (ca' & Hca' & Hkey') & Hname') | b l E'];
             subst.
           ++ left. rewrite Hca in Hca'. inversion Hca'; subst ca'.
              rewrite Hkey in Hkey'. inversion Hkey'; subst key'.
              rewrite Hname in Hname'. inversion Hname'; subst n.
              rewrite (members_obj_set_plain map name blob Hproto).
              unfold has_key. rewrite assoc_put_own, String.eqb_refl.
              reflexivity.
           ++ right. exact E'.
Qed.
End ValidationFacts.

Section ValidationSound.
Variable ext : Externals.

Import ValidateSignupRequestTask.

(** When the two steps succeed, they return the valid bits, and the bundle
    is as [Established] says. *)
Lemma raw_success (m : Msg) (peer : string) (cfg : ServerConfig)
    (vb : value) :
  raw ext m peer cfg = Continue vb ->
  exists p map, vb = validBits p (Obj map) /\ Established ext m peer cfg p map.
Proof.
  unfold raw, steps. simpl run_steps.
  unfold validateSelfIdent, validateClientAuth. unfold_task.
  cbn -[checkClientAuths].
  destruct (assertGetPersonSelfIdent ext (selfIdent m) Null)
    as [p |] eqn:Hp; cbn -[checkClientAuths]; [| discriminate].
  destruct (get_prop p "transitServerIdent") as [t |] eqn:Ht;
    cbn -[checkClientAuths]; [| discriminate].
  destruct (strict_eq_str t (selfIdentBlob cfg)) eqn:Hus;
    cbn -[checkClientAuths]; [| discriminate].
  apply strict_eq_str_true in Hus. subst t.
  destruct (get_prop p "poco") as [poco |] eqn:Hpoco;
    cbn -[checkClientAuths]; [| discriminate].
  destruct (has_own_property poco "displayName") as [[] |] eqn:Hhas;
    cbn -[checkClientAuths]; try discriminate.
  destruct (clientAuths m) as [| | | | | blobs |] eqn:Hauths;
    cbn -[checkClientAuths]; try discriminate.
  destruct blobs as [| blob0 rest] eqn:Hblobs; cbn -[checkClientAuths];
    [discriminate |].
  rewrite <- Hblobs in *.
  destruct (get_prop p "root") as [root |] eqn:Hroot;
    cbn -[checkClientAuths]; [| discriminate].
  destruct (get_prop root "longtermSignPubKey") as [longterm |] eqn:Hlong;
    cbn -[checkClientAuths]; [| discriminate].
  destruct (checkClientAuths ext [longterm] peer blobs false emptyLiteral)
    as [[found map] |] eqn:Hloop; cbn -[checkClientAuths]; [| discriminate].
  destruct found; cbn -[checkClientAuths]; [| discriminate].
  intro H. inversion H; subst vb. clear H.
  exists p, (members map). split; [reflexivity |].
  apply checkClientAuths_completes in Hloop.
  destruct Hloop as (HF & Hfound & Hentries & Hkeys).
  split; [exact Hp |]. split; [exact Ht |].
  split; [exists poco; auto |].
  exists blobs, root, longterm.
  split; [exact Hauths |].
  split; [rewrite Hblobs; discriminate |].
  split; [exact Hroot |]. split; [exact Hlong |]. split; [exact HF |].
  split.
  { destruct (proj1 Hfound eq_refl) as [F | E]; [discriminate | exact E]. }
  split.
  - intros n b Hn. apply Hentries in Hn.
    destruct Hn as [Hn | Hn]; [discriminate | exact Hn].
  - intros n Hproto. split.
    + intro Hn. apply (Hkeys n Hproto) in Hn.
      destruct Hn as [Hn | Hn]; [discriminate | exact Hn].
    + intro Hn. apply (Hkeys n Hproto). right. exact Hn.
Qed.

(** The same, read off what the task resolved with. *)
Lemma validated_established (m : Msg) (peer : string) (cfg : ServerConfig)
    (p am : value) :
  run ext m peer cfg = validBits p am ->
  exists map, am = Obj map /\ Established ext m peer cfg p map.
Proof.
  rewrite validation_of_raw.
  destruct (raw ext m peer cfg) as [vb | vb | e] eqn:R.
  - intro H. subst vb. apply raw_success in R.
    destruct R as (p' & map & E & Est). inversion E; subst. eauto.
  - unfold raw, steps in R. simpl run_steps in R.
    unfold validateSelfIdent, validateClientAuth in R.
    unfold_task. simpl in R. exfalso. revert R.
    repeat (split_scrutinee; simpl; try discriminate).
  - discriminate.
Qed.
End ValidationSound.

Section ValidationLoop.
Variable ext : Externals.

Import ValidateSignupRequestTask.

(** Authorizations that all verify and name string keys let the loop run
    to its end. *)
Lemma checkClientAuths_runs (keys : list value) (peer : string)
    (blobs : list value) :
  Forall (fun blob => exists s, attests ext keys blob (Str s)) blobs ->
  forall found map,
  exists found' map',
    checkClientAuths ext keys peer blobs found map = Normal (found', map').
Proof.
  induction 1 as [| blob rest (s & ca & Hca & Hkey) _ IH];
    intros found map; simpl.
  - eauto.
  - rewrite Hca. simpl. rewrite Hkey. simpl. apply IH.
Qed.

(** One authorization that does not verify stops the loop with an error,
    wherever it stands in the list. *)
Lemma checkClientAuths_stops (keys : list value) (peer : string)
    (blobs : list value) (bad : value) (e : error) :
  In bad blobs ->
  assertCheckGetAttestation ext bad "client" keys = Throw e ->
  forall found map,
  exists e', checkClientAuths ext keys peer blobs found map = Throw e'.
Proof.
  intros Hin Hbad.
  induction blobs as [| blob rest IH]; intros found map; simpl.
  - contradiction.
  - destruct (assertCheckGetAttestation ext blob "client" keys)
      as [ca | e0] eqn:Hca; simpl; [| eauto].
    destruct (get_prop ca "authorizedKey") as [key | e1]; simpl; [| eauto].
    destruct (to_js_string (numberToString ext) key) as [name | e2]; simpl;
      [| eauto].
    destruct Hin as [-> | Hin].
    + rewrite Hbad in Hca. discriminate.
    + apply IH. exact Hin.
Qed.
End ValidationLoop.

(** ** The course of a run: consequences *)

Section CourseFacts.
Variable ext : Externals.
Variable g : Globals.
Variable m : Msg.
Variable c : Conn.

Lemma keyOf_functional (p k k' : value) :
  keyOf p k -> keyOf p k' -> k = k'.
Proof.
  intros (r & R1 & R2) (r' & R1' & R2').
  rewrite R1 in R1'. inversion R1'; subst r'.
  rewrite R2 in R2'. inversion R2'. reflexivity.
Qed.

Lemma displayNameOf_functional (p dn dn' : value) :
  displayNameOf p dn -> displayNameOf p dn' -> dn = dn'.
Proof.
  intros (r & R1 & R2) (r' & R1' & R2').
  rewrite R1 in R1'. inversion R1'; subst r'.
  rewrite R2 in R2'. inversion R2'. reflexivity.
Qed.

Lemma validatedAs_functional (p am p' am' : value) :
  validatedAs ext m c p am -> validatedAs ext m c p' am' ->
  p = p' /\ am = am'.
Proof.
  unfold validatedAs. intros V V'. rewrite V in V'.
  inversion V'. auto.
Qed.

(** After validation, the later steps can read the root signing key and
    the display name. *)
Lemma validated_is_readable (p am : value) :
  validatedAs ext m c p am ->
  (exists k, keyOf p k) /\ (exists dn, displayNameOf p dn).
Proof.
  intro V.
  destruct (validated_established ext m _ _ p am V)
    as (map & _ & _ & _ & (poco & Hpoco & Hhas) & blobs & root & longterm
        & _ & _ & Hroot & Hlong & _).
  split.
  - destruct (get_prop_readable root longterm "longtermSignPubKey"
                "rootSignPubKey" Hlong) as [k Hk].
    exists k, root. auto.
  - destruct (has_own_property_readable poco true "displayName"
                "displayName" Hhas) as [dn Hdn].
    exists dn, poco. auto.
Qed.

(** With no supported name in [because], the challenge step lets the task
    go on. *)
Lemma gate_passes_on_unsupported (p am k : value) :
  (forall name, In name (for_in_keys (because m)) ->
                ProcessSignupTask.indexOf_found ["none"; "browserid"] name
                = false) ->
  gateOutcome ext g m c p am k = Continue Undefined.
Proof.
  intro Hnone. unfold gateOutcome, ProcessSignupTask.checkOrGenerateChallenge.
  unfold bind at 1, get at 1. unfold bind at 1.
  rewrite (challengeLoop_skips_unsupported ext g
             (for_in_keys (because (ProcessSignupTask.msg
                                      (atGate m c p am k))))
             [] (atGate m c p am k) Hnone).
  reflexivity.
Qed.
End CourseFacts.

(** ** The loop of the challenge step *)

(** One turn of the loop. *)
Lemma challengeLoop_turn
    (ext : Externals) (g : Globals) (name : string) (rest : list string)
    (promises : list Promise) (this : ProcessSignupTask.This) :
  ProcessSignupTask.challengeLoop ext g (name :: rest) promises this =
  if ProcessSignupTask.indexOf_found (ProcessSignupTask.challenges this) name
  then
    match ProcessSignupTask.challengeSwitch ext g name this with
    | (Continue result, this1) =>
        if has_Q g then
          match result with
          | Pending p =>
              ProcessSignupTask.challengeLoop ext g rest (promises ++ [p])
                this1
          | Plain v =>
              if truthy v then
                match problemo g with
                | Some challengeType =>
                    ProcessSignupTask.respondWithChallenge challengeType
                      this1
                | None => (Fail (ReferenceError "problemo"), this1)
                end
              else ProcessSignupTask.challengeLoop ext g rest promises this1
          end
        else (Fail (ReferenceError "$Q"), this1)
    | (EarlyReturn v, this1) => (EarlyReturn v, this1)
    | (Fail e, this1) => (Fail e, this1)
    end
  else ProcessSignupTask.challengeLoop ext g rest promises this.
Proof.
  simpl ProcessSignupTask.challengeLoop. unfold bind at 1, get at 1.
  destruct (ProcessSignupTask.indexOf_found
              (ProcessSignupTask.challenges this) name);
    simpl; [| reflexivity].
  unfold bind at 1.
  destruct (ProcessSignupTask.challengeSwitch ext g name this)
    as [[r | v | e] this1]; try reflexivity.
  unfold bind at 1, lift at 1, lookup_global.
  destruct (has_Q g); [| reflexivity].
  destruct r as [v | p]; [| reflexivity].
  destruct (truthy v); [| reflexivity].
  destruct (problemo g); reflexivity.
Qed.

(** * The claims *)

(** ** C1: the challenge gate when [none] is in the catalog *)

(** [C1] (defect in the code).  The claim is that, the catalog containing
    [none], the challenge gate passes whatever [because] holds.  The source
    computes [passed] and never reads it, so a [browserid] entry is still
    handed to the verifier.  For a bundle whose [because] is
    [{browserid: ...}] and whose profile declares no [emails], the
    challenge stage (which installs the catalog [["none"; "browserid"]])
    does not let the task proceed, whatever the globals and the imported
    modules are. *)
Theorem browserid_entry_is_checked_despite_none
    (ext : Externals) (g : Globals) (this : ProcessSignupTask.This)
    (assertion poco : value) :
  because (ProcessSignupTask.msg this) = Obj [("browserid", assertion)] ->
  get_prop (ProcessSignupTask.selfIdentPayload this) "poco" = Normal poco ->
  has_own_property poco "emails" = Normal false ->
  proceeds (fst (ProcessSignupTask.challengeStage ext g this)) = false.
Proof.
  intros Hwhy Hpoco Hemails.
  unfold ProcessSignupTask.challengeStage. simpl run_steps.
  unfold ProcessSignupTask.determineChallenges,
    ProcessSignupTask.set_challenges.
  unfold bind at 1. unfold bind at 1. unfold ret at 1. unfold bind at 1.
  unfold ProcessSignupTask.checkOrGenerateChallenge.
  unfold bind at 1, get at 1. simpl ProcessSignupTask.msg.
  rewrite Hwhy. simpl for_in_keys. simpl ProcessSignupTask.challengeLoop.
  unfold ProcessSignupTask.challengeSwitch,
    ProcessSignupTask.verifyBrowserId.
  unfold_task. simpl. rewrite Hwhy. simpl. rewrite Hpoco. simpl.
  rewrite Hemails. simpl.
  unfold lookup_global.
  destruct (has_Q g); [| reflexivity].
  destruct (problemo g); reflexivity.
Qed.

Lemma browserid_entry_is_checked_despite_none_witness :
  proceeds
    (fst (ProcessSignupTask.challengeStage Demo.ext module_globals
            (Cases.atChallengeStage Cases.signupWithBrowserid
               Demo.alicePoco))) = false.
Proof.
  apply (browserid_entry_is_checked_despite_none Demo.ext module_globals
           (Cases.atChallengeStage Cases.signupWithBrowserid Demo.alicePoco)
           (Obj [("certificates", Str "valid"); ("assertion", Str "token")])
           Demo.alicePoco); reflexivity.
Defined.

(** The same bundle through the whole task: no account is created and the
    peer is told nothing, or is sent whatever [problemo] holds. *)
Example browserid_entry_blocks_open_signup (g : Globals) :
  let r := ProcessSignupTask.run Demo.ext g Cases.signupWithBrowserid
             (Demo.connOf Demo.emptyStore) in
  ProcessSignupTask.log (snd r) =
  match (if has_Q g then problemo g else None) with
  | Some challengeType =>
      [CheckUserAccount (Str "root-key");
       WriteMessage (challengeMessage challengeType); Close]
  | None => [CheckUserAccount (Str "root-key")]
  end.
Proof. destruct g as [[] w j [ct |]]; reflexivity. Qed.

(** A [none] entry alone passes the gate only when [$Q] is bound: the loop
    asks [$Q.isPromise] about every supported entry. *)
Example none_entry_needs_Q :
  fst (ProcessSignupTask.run Demo.ext module_globals
         (Cases.wellFormed Demo.alicePoco (Obj [("none", Null)]))
         (Demo.connOf Demo.emptyStore))
  = Rejected (ReferenceError "$Q") /\
  fst (ProcessSignupTask.run Demo.ext Demo.libsOnly
         (Cases.wellFormed Demo.alicePoco (Obj [("none", Null)]))
         (Demo.connOf Demo.emptyStore))
  = Resolved Undefined.
Proof. split; reflexivity. Qed.

(** With an empty [because] the same identity is signed up. *)
Example empty_because_is_signed_up (g : Globals) :
  peerView (ProcessSignupTask.events Demo.ext g Cases.plainSignup
              (Demo.connOf Demo.emptyStore))
  = [WriteMessage signedUpMessage; Close].
Proof. reflexivity. Qed.

(** ** C2: unauthorized-data-leak and malformed-payload look the same *)

(** [C2].  A bundle whose client authorizations all verify against the
    identity's signing key while none of them names the connected peer's key,
    and a bundle whose validation fails as a malformed payload, produce the
    same events: the single message
    [{type: "challenge", challenge: {mechanism: "never"}}] and the closing
    of the connection; both tasks resolve with the same value. *)
Theorem unauthorized_and_malformed_are_indistinguishable
    (ext : Externals) (g : Globals) (c : Conn) (m1 m2 : Msg)
    (p root longterm : value) (blobs : list value) :
  assertGetPersonSelfIdent ext (selfIdent m1) Null = Normal p ->
  get_prop p "root" = Normal root ->
  get_prop root "longtermSignPubKey" = Normal longterm ->
  clientAuths m1 = Arr blobs ->
  Forall (fun blob =>
            exists clientAuth key,
              assertCheckGetAttestation ext blob "client" [longterm]
                = Normal clientAuth /\
              get_prop clientAuth "authorizedKey" = Normal key /\
              strict_eq_str key (clientPublicKey c) = false) blobs ->
  ValidateSignupRequestTask.raw ext m2 (clientPublicKey c) (serverConfig c)
    = Fail MalformedPayloadError ->
  ProcessSignupTask.events ext g m1 c = [WriteMessage neverMessage; Close] /\
  ProcessSignupTask.events ext g m2 c = ProcessSignupTask.events ext g m1 c /\
  fst (ProcessSignupTask.run ext g m2 c)
    = fst (ProcessSignupTask.run ext g m1 c).
Proof.
  intros Hp Hroot Hlong Hauths Hnone Hmal.
  assert (V1 : ValidateSignupRequestTask.run ext m1 (clientPublicKey c)
                 (serverConfig c) = Bool false).
  { rewrite validation_of_raw.
    unfold ValidateSignupRequestTask.raw, ValidateSignupRequestTask.steps.
    simpl run_steps.
    unfold ValidateSignupRequestTask.validateSelfIdent,
      ValidateSignupRequestTask.validateClientAuth.
    unfold_task. simpl. rewrite Hp. simpl.
    destruct (get_prop p "transitServerIdent") as [t | e]; simpl; auto.
    destruct (strict_eq_str t (selfIdentBlob (serverConfig c))); simpl; auto.
    destruct (get_prop p "poco") as [poco | e]; simpl; auto.
    destruct (has_own_property poco "displayName") as [[] | e]; simpl; auto.
    rewrite Hauths.
    destruct (Nat.eqb (List.length blobs) 0); simpl; auto.
    rewrite Hroot. simpl. rewrite Hlong. simpl.
    pose proof (checkClientAuths_not_found ext [longterm] (clientPublicKey c)
                  blobs Hnone emptyLiteral) as L.
    destruct (ValidateSignupRequestTask.checkClientAuths ext [longterm]
                (clientPublicKey c) blobs false emptyLiteral)
      as [[found map] | e];
      simpl; auto.
    subst found. reflexivity. }
  assert (V2 : ValidateSignupRequestTask.run ext m2 (clientPublicKey c)
                 (serverConfig c) = Bool false)
    by (eapply raw_failure_is_soft; eauto).
  destruct (invalid_request_gets_never ext g m1 c) as (t1 & R1 & L1);
    [rewrite V1; reflexivity |].
  destruct (invalid_request_gets_never ext g m2 c) as (t2 & R2 & L2);
    [rewrite V2; reflexivity |].
  unfold ProcessSignupTask.events. rewrite R1, R2. simpl.
  rewrite L1, L2. auto.
Qed.

Lemma unauthorized_and_malformed_are_indistinguishable_witness :
  ProcessSignupTask.events Demo.ext module_globals
    Cases.signupForSomeoneElse (Demo.connOf Demo.emptyStore)
  = [WriteMessage neverMessage; Close] /\
  ProcessSignupTask.events Demo.ext module_globals
    Cases.signupWithoutAuths (Demo.connOf Demo.emptyStore)
  = ProcessSignupTask.events Demo.ext module_globals
      Cases.signupForSomeoneElse (Demo.connOf Demo.emptyStore) /\
  fst (ProcessSignupTask.run Demo.ext module_globals
         Cases.signupWithoutAuths (Demo.connOf Demo.emptyStore))
  = fst (ProcessSignupTask.run Demo.ext module_globals
           Cases.signupForSomeoneElse (Demo.connOf Demo.emptyStore)).
Proof.
  apply (unauthorized_and_malformed_are_indistinguishable
           Demo.ext module_globals (Demo.connOf Demo.emptyStore)
           Cases.signupForSomeoneElse Cases.signupWithoutAuths
           (Demo.identWith "server-blob" Demo.alicePoco)
           (Obj [("rootSignPubKey", Str "root-key");
                 ("longtermSignPubKey", Str "longterm-key")])
           (Str "longterm-key")
           [Demo.authFor "other-key"]);
    try reflexivity.
  constructor; [| constructor].
  exists (Demo.authFor "other-key"), (Str "other-key").
  repeat split; reflexivity.
Defined.

(** The first of the two really fails for the reason its name gives. *)
Example someone_else_is_a_data_leak :
  ValidateSignupRequestTask.raw Demo.ext Cases.signupForSomeoneElse
    "client-key" (Demo.cfg Demo.emptyStore)
  = Fail UnauthorizedUserDataLeakError.
Proof. reflexivity. Qed.

(** ** C3: a self-ident that names another transit server *)

(** [C3].  When the [transitServerIdent] of the self-ident payload is not
    strictly equal to the server's own [selfIdentBlob], the task writes the
    [never] challenge, closes the connection and resolves; these are the
    only events, so neither [serverCheckUserAccount] nor
    [serverCreateUserAccount] is called. *)
Theorem foreign_transit_server_is_refused
    (ext : Externals) (g : Globals) (m : Msg) (c : Conn)
    (p transit : value) :
  assertGetPersonSelfIdent ext (selfIdent m) Null = Normal p ->
  get_prop p "transitServerIdent" = Normal transit ->
  strict_eq_str transit (selfIdentBlob (serverConfig c)) = false ->
  fst (ProcessSignupTask.run ext g m c) = Resolved Undefined /\
  ProcessSignupTask.events ext g m c = [WriteMessage neverMessage; Close] /\
  existsb isStoreCall (ProcessSignupTask.events ext g m c) = false.
Proof.
  intros Hp Ht Hne.
  pose proof (foreign_transit_raises ext m (clientPublicKey c)
                (serverConfig c) p transit Hp Ht Hne) as Hraw.
  apply raw_failure_is_soft in Hraw.
  destruct (invalid_request_gets_never ext g m c) as (this' & R & L);
    [rewrite Hraw; reflexivity |].
  unfold ProcessSignupTask.events. rewrite R. simpl. rewrite L.
  repeat split; reflexivity.
Qed.

Lemma foreign_transit_server_is_refused_witness :
  fst (ProcessSignupTask.run Demo.ext module_globals Cases.signupElsewhere
         (Demo.connOf Demo.emptyStore)) = Resolved Undefined /\
  ProcessSignupTask.events Demo.ext module_globals Cases.signupElsewhere
    (Demo.connOf Demo.emptyStore) = [WriteMessage neverMessage; Close] /\
  existsb isStoreCall
    (ProcessSignupTask.events Demo.ext module_globals Cases.signupElsewhere
       (Demo.connOf Demo.emptyStore)) = false.
Proof.
  apply (foreign_transit_server_is_refused Demo.ext module_globals
           Cases.signupElsewhere (Demo.connOf Demo.emptyStore)
           (Demo.identWith "other-server-blob" Demo.alicePoco)
           (Str "other-server-blob")); reflexivity.
Defined.

(** ** C4: the existence check comes first *)

(** [C4].  In every run, a call of [serverCreateUserAccount] is preceded by
    a call of [serverCheckUserAccount] on the root signing key of the payload
    being created; and when the store answers the check with a truthy value,
    the run consists of that check, the [already-signed-up] challenge and
    the closing of the connection, with no creation. *)
Theorem check_precedes_create
    (ext : Externals) (g : Globals) (m : Msg) (c : Conn) :
  (forall before after p raw am kr info,
      ProcessSignupTask.events ext g m c
        = (before ++ CreateUserAccount p raw am kr info :: after)%list ->
      exists k, keyOf p k /\ In (CheckUserAccount k) before) /\
  (forall k v,
      In (CheckUserAccount k) (ProcessSignupTask.events ext g m c) ->
      serverCheckUserAccount (authApi (serverConfig c)) k = Normal v ->
      truthy v = true ->
      fst (ProcessSignupTask.run ext g m c) = Resolved Undefined /\
      ProcessSignupTask.events ext g m c
        = [CheckUserAccount k; WriteMessage alreadyMessage; Close]).
Proof.
  unfold ProcessSignupTask.events.
  destruct (ProcessSignupTask.run ext g m c) as [r this'] eqn:R.
  apply run_ending in R. simpl. split.
  - intros before after p raw am kr info Hsplit.
    assert (Hin : In (CreateUserAccount p raw am kr info)
                    (ProcessSignupTask.log this'))
      by (rewrite Hsplit; apply in_elt).
    inversion R as [V H1 H2 | e H1 H2 | k e F H1 H2 | k v F T H1 H2
                   | k v e F T H1 H2 | k v ct F T P H1 H2
                   | k v p' raw' am' kr' info' e F T K H1 H2
                   | k v p' raw' am' kr' info' F T K H1 H2];
      rewrite <- H2 in Hin, Hsplit; simpl in Hin;
      repeat (destruct Hin as [Hin | Hin]; try discriminate);
      try contradiction;
      inversion Hin; subst p' raw' am' kr' info';
      exists k; (split; [exact K |]);
      (destruct before as [| b0 before];
       [discriminate |
        simpl in Hsplit; inversion Hsplit; left; reflexivity]).
  - intros k v Hin Hstore Htrue.
    inversion R as [V H1 H2 | e H1 H2 | k' e F H1 H2 | k' v' F T H1 H2
                   | k' v' e F T H1 H2 | k' v' ct F T P H1 H2
                   | k' v' p' raw' am' kr' info' e F T K H1 H2
                   | k' v' p' raw' am' kr' info' F T K H1 H2];
      rewrite <- H2 in Hin; simpl in Hin;
      repeat (destruct Hin as [Hin | Hin]; try discriminate);
      try contradiction;
      inversion Hin; subst k';
      rewrite Hstore in F; inversion F; subst;
      try (rewrite Htrue in T; discriminate).
    split; reflexivity.
Qed.

Lemma check_precedes_create_witness :
  fst (ProcessSignupTask.run Demo.ext module_globals Cases.plainSignup
         (Demo.connOf Demo.fullStore)) = Resolved Undefined /\
  ProcessSignupTask.events Demo.ext module_globals Cases.plainSignup
    (Demo.connOf Demo.fullStore)
  = [CheckUserAccount (Str "root-key"); WriteMessage alreadyMessage; Close].
Proof.
  apply (proj2 (check_precedes_create Demo.ext module_globals
                  Cases.plainSignup (Demo.connOf Demo.fullStore))
           (Str "root-key") (Bool true)).
  - left; reflexivity.
  - reflexivity.
  - reflexivity.
Defined.

(** On an empty store the creation follows the check of the same key. *)
Example creation_follows_check :
  ProcessSignupTask.events Demo.ext module_globals Cases.plainSignup
    (Demo.connOf Demo.emptyStore)
  = [CheckUserAccount (Str "root-key");
     CreateUserAccount
       (Demo.identWith "server-blob" Demo.alicePoco)
       (Demo.identWith "server-blob" Demo.alicePoco)
       (Obj [("client-key", Demo.authFor "client-key")])
       (Str "keyring")
       (Obj [("displayName", Str "Alice")]);
     WriteMessage signedUpMessage; Close].
Proof. reflexivity. Qed.

(** ** C5: one terminal message, then close *)

(** [C5] (the claim as stated fails).  Runs of the task end without a
    message to the peer and without the connection being closed: the task is
    rejected when the account store fails the existence check, and also
    when [because] holds a [none] entry while no [$Q] is bound. *)
Lemma runs_that_end_without_a_message :
  fst (ProcessSignupTask.run Demo.ext module_globals Cases.plainSignup
         (Demo.connOf Faults.unreachableStore))
    = Rejected (ExternalError "store") /\
  ProcessSignupTask.events Demo.ext module_globals Cases.plainSignup
    (Demo.connOf Faults.unreachableStore)
    = [CheckUserAccount (Str "root-key")] /\
  fst (ProcessSignupTask.run Demo.ext module_globals
         (Cases.wellFormed Demo.alicePoco (Obj [("none", Null)]))
         (Demo.connOf Demo.emptyStore))
    = Rejected (ReferenceError "$Q") /\
  peerView
    (ProcessSignupTask.events Demo.ext module_globals
       (Cases.wellFormed Demo.alicePoco (Obj [("none", Null)]))
       (Demo.connOf Demo.emptyStore))
    = [].
Proof. repeat split; reflexivity. Qed.

(** [C5] (as amended).  Every run of the task ends in one of two ways.
    Either the task resolves, and then the run ends with one message to the
    peer, a challenge or [signedUp], followed by the closing of the
    connection, everything before being a call on the account store: the
    peer sees exactly one message.  Or the task is rejected, which happens
    only for a validated bundle, when the existence check fails, the
    challenge step throws or the creation fails, with that very error; then
    no message was written and the connection was not closed. *)
Theorem run_ends_with_one_message_or_none
    (ext : Externals) (g : Globals) (m : Msg) (c : Conn) :
  match ProcessSignupTask.run ext g m c with
  | (Resolved v, this') =>
      v = Undefined /\
      exists before message,
        ProcessSignupTask.log this'
          = (before ++ [WriteMessage message; Close])%list /\
        forallb isStoreCall before = true /\
        terminalMessage message /\
        peerView (ProcessSignupTask.log this')
          = [WriteMessage message; Close]
  | (Rejected e, this') =>
      peerView (ProcessSignupTask.log this') = [] /\
      exists p am k,
        validatedAs ext m c p am /\ keyOf p k /\
        (storeCheck c k = Throw e \/
         gateOutcome ext g m c p am k = Fail e \/
         exists dn, displayNameOf p dn /\ storeCreate m c p am dn = Throw e)
  end.
Proof.
  destruct (ProcessSignupTask.run ext g m c) as [r this'] eqn:R.
  apply run_course in R.
  inversion R as [V | p am e0 V NK | p am k e0 V K F | p am k v V K F T
                 | p am k v e0 V K F T G | p am k v ct V K F T G P
                 | p am k v e0 V K F T G ND
                 | p am k v dn e0 V K F T G D Cr
                 | p am k v dn created V K F T G D Cr]; subst.
  - split; [reflexivity |]. exists [], neverMessage. repeat split.
    right; exists (Str CHALLENGE_NEVER); reflexivity.
  - exfalso. destruct (validated_is_readable ext m c p am V) as [[k K] _].
    exact (NK k K).
  - split; [reflexivity |]. exists p, am, k. auto.
  - split; [reflexivity |].
    exists [CheckUserAccount k], alreadyMessage. repeat split.
    right; exists (Str CHALLENGE_ALREADY_SIGNED_UP); reflexivity.
  - split; [reflexivity |]. exists p, am, k. auto.
  - split; [reflexivity |].
    exists [CheckUserAccount k], (challengeMessage ct). repeat split.
    right; exists ct; reflexivity.
  - exfalso. destruct (validated_is_readable ext m c p am V) as [_ [dn D]].
    exact (ND dn D).
  - split; [reflexivity |]. exists p, am, k. repeat split; auto.
    right. right. exists dn. auto.
  - split; [reflexivity |].
    exists [CheckUserAccount k; creationEvent m p am dn], signedUpMessage.
    repeat split. left; reflexivity.
Qed.

(** ** C6: a chain that fails verification *)

(** [C6] (defect in the code).  The claim is that a certificate chain that
    fails verification makes the verifier deliver
    [server-problem-try-again-later].  The error callback can deliver
    nothing: [deferred] is the function [$Q.defer] itself, so
    [deferred.resolve] is not callable; and what the verifier returns is
    never that mechanism and never a promise through which it could arrive
    later.  This holds for every assertion, profile, chain verifier and
    binding of the globals. *)
Theorem chain_error_is_never_reported
    (ext : Externals) (g : Globals) (assertion err : value)
    (this : ProcessSignupTask.This) :
  ProcessSignupTask.errorCB DeferFunction err = Throw TypeError /\
  reports (fst (ProcessSignupTask.verifyBrowserId ext g assertion this))
    CHALLENGE_SERVER_PROBLEM = false /\
  pends (fst (ProcessSignupTask.verifyBrowserId ext g assertion this))
    = false.
Proof.
  split; [reflexivity |].
  pose proof (verifyBrowserId_returns ext g assertion this) as R.
  destruct (fst (ProcessSignupTask.verifyBrowserId ext g assertion this))
    as [[v | p] | v | e]; simpl in *; try contradiction; auto.
  destruct R as [-> | ->]; auto.
Qed.

(** An expired chain for a profile with one declared address: the verifier
    fails while reading [poco.email[0]], before it looks at the chain, and
    the task is rejected without a word to the peer. *)
Example expired_chain_is_not_reported (g : Globals) :
  fst (ProcessSignupTask.verifyBrowserId Demo.ext g
         (Obj [("certificates", Str "expired"); ("assertion", Str "token")])
         (Cases.atChallengeStage Cases.signupWithExpiredChain
            Demo.aliceWithEmails))
  = Fail TypeError /\
  ProcessSignupTask.run Demo.ext g Cases.signupWithExpiredChain
    (Demo.connOf Demo.emptyStore)
  = (Rejected TypeError,
     Cases.atChallengeStage Cases.signupWithExpiredChain
       Demo.aliceWithEmails).
Proof. split; reflexivity. Qed.

(** With the singular [email] present as well and [$Q] bound, the error
    callback runs and throws. *)
Example expired_chain_with_both_fields :
  fst (ProcessSignupTask.verifyBrowserId Demo.ext Demo.generous
         (Obj [("certificates", Str "expired"); ("assertion", Str "token")])
         (Cases.atChallengeStage
            (Cases.wellFormed Demo.aliceWithBoth
               (Demo.browseridWith "expired"))
            Demo.aliceWithBoth))
  = Fail TypeError.
Proof. reflexivity. Qed.

(** ** C7: an asserted e-mail that differs from the declared one *)

(** [C7] (defect in the code).  The claim is that a verified chain whose
    principal e-mail differs from the declared one yields
    [bad-browserid-assertion].  For a profile that declares exactly one
    address and an assertion that unbundles, whatever the chain verifier
    does and reports, the verifier leaves the task object alone and either
    throws or returns [undefined]: it returns neither that mechanism nor a
    promise that could bring it later, and no call of the success callback,
    on any key and principal, does anything but throw.  So when [because]
    holds just this [browserid] entry, the challenge stage writes nothing to
    the peer: it lets the task proceed to the signup, or throws.  (The claimed
    address is read from [poco.email], not from the validated [poco.emails];
    [jwt] is undeclared; [deferred] is the function [$Q.defer].) *)
Theorem email_mismatch_is_not_rejected
    (ext : Externals) (g : Globals) (assertion : value)
    (this : ProcessSignupTask.This) (poco bundle : value)
    (declared : string) :
  get_prop (ProcessSignupTask.selfIdentPayload this) "poco" = Normal poco ->
  has_own_property poco "emails" = Normal true ->
  get_prop poco "emails" = Normal (Arr [Str declared]) ->
  unbundleCertsAndAssertion ext assertion = Normal bundle ->
  reports (fst (ProcessSignupTask.verifyBrowserId ext g assertion this))
    CHALLENGE_INVALID_BROWSERID = false /\
  pends (fst (ProcessSignupTask.verifyBrowserId ext g assertion this))
    = false /\
  (ProcessSignupTask.verifyBrowserId ext g assertion this
     = (Continue (Plain Undefined), this) \/
   exists e,
     ProcessSignupTask.verifyBrowserId ext g assertion this
       = (Fail e, this)) /\
  (forall claimed pk principal,
      exists e,
        ProcessSignupTask.successCB ext g DeferFunction bundle claimed
          pk principal = Throw e) /\
  (because (ProcessSignupTask.msg this) = Obj [("browserid", assertion)] ->
   ProcessSignupTask.log (snd (ProcessSignupTask.challengeStage ext g this))
     = ProcessSignupTask.log this /\
   (fst (ProcessSignupTask.challengeStage ext g this) = Continue Undefined \/
    exists e,
      fst (ProcessSignupTask.challengeStage ext g this) = Fail e)).
Proof.
  intros Hpoco Hhas Hemails Hbundle.
  assert (Hverify :
            forall this1,
              ProcessSignupTask.selfIdentPayload this1
                = ProcessSignupTask.selfIdentPayload this ->
              ProcessSignupTask.verifyBrowserId ext g assertion this1
                = (Continue (Plain Undefined), this1) \/
              exists e,
                ProcessSignupTask.verifyBrowserId ext g assertion this1
                  = (Fail e, this1)).
  { intros this1 Hsame.
    unfold ProcessSignupTask.verifyBrowserId. unfold_task.
    rewrite Hsame, Hpoco, Hhas. simpl. rewrite Hemails. simpl.
    rewrite Hbundle.
    repeat (split_scrutinee; simpl; eauto). }
  assert (Hrun :
            because (ProcessSignupTask.msg this)
              = Obj [("browserid", assertion)] ->
            exists this1,
              ProcessSignupTask.log this1 = ProcessSignupTask.log this /\
              (ProcessSignupTask.challengeStage ext g this
                 = (Continue Undefined, this1) \/
               exists e,
                 ProcessSignupTask.challengeStage ext g this
                   = (Fail e, this1))).
  { intro Hwhy.
    pose (this1 :=
            {| ProcessSignupTask.msg := ProcessSignupTask.msg this;
               ProcessSignupTask.conn := ProcessSignupTask.conn this;
               ProcessSignupTask.selfIdentPayload :=
                 ProcessSignupTask.selfIdentPayload this;
               ProcessSignupTask.clientAuthsMap :=
                 ProcessSignupTask.clientAuthsMap this;
               ProcessSignupTask.challenges := ["none"; "browserid"];
               ProcessSignupTask.log := ProcessSignupTask.log this |}).
    assert (E : ProcessSignupTask.challengeStage ext g this =
                match ProcessSignupTask.verifyBrowserId ext g assertion this1
                with
                | (Continue (Plain Undefined), this2) =>
                    if has_Q g then (Continue Undefined, this2)
                    else (Fail (ReferenceError "$Q"), this2)
                | (Fail e, this2) => (Fail e, this2)
                | _ => (Fail TypeError, this1)
                end).
    { destruct (Hverify this1 eq_refl) as [Hv1 | [e1 Hv1]]; rewrite Hv1;
        unfold this1 in Hv1;
        unfold ProcessSignupTask.challengeStage; simpl run_steps;
        unfold ProcessSignupTask.determineChallenges,
          ProcessSignupTask.set_challenges;
        unfold bind at 1; unfold bind at 1; unfold ret at 1;
        unfold bind at 1;
        unfold ProcessSignupTask.checkOrGenerateChallenge;
        unfold bind at 1, get at 1; simpl ProcessSignupTask.msg;
        rewrite Hwhy; simpl for_in_keys; unfold bind at 1;
        rewrite challengeLoop_turn; simpl ProcessSignupTask.indexOf_found;
        cbv iota;
        unfold ProcessSignupTask.challengeSwitch; unfold_task;
        cbn -[ProcessSignupTask.verifyBrowserId];
        rewrite Hwhy;
        cbn -[ProcessSignupTask.verifyBrowserId];
        rewrite Hv1; destruct (has_Q g); reflexivity. }
    exists this1. split; [reflexivity |]. rewrite E.
    destruct (Hverify this1 eq_refl) as [Hv1 | [e1 Hv1]]; rewrite Hv1.
    - destruct (has_Q g); eauto.
    - eauto. }
  assert (Hstage :
            because (ProcessSignupTask.msg this)
              = Obj [("browserid", assertion)] ->
            ProcessSignupTask.log
              (snd (ProcessSignupTask.challengeStage ext g this))
              = ProcessSignupTask.log this /\
            (fst (ProcessSignupTask.challengeStage ext g this)
               = Continue Undefined \/
             exists e,
               fst (ProcessSignupTask.challengeStage ext g this) = Fail e)).
  { intro Hwhy. destruct (Hrun Hwhy) as (this1 & Hlog & [R | [e R]]);
      rewrite R; simpl; eauto. }
  destruct (Hverify this eq_refl) as [Hv | [e Hv]]; rewrite Hv; simpl.
  - split; [reflexivity |]. split; [reflexivity |].
    split; [left; reflexivity |].
    split; [intros; apply successCB_throws | exact Hstage].
  - split; [reflexivity |]. split; [reflexivity |].
    split; [right; exists e; reflexivity |].
    split; [intros; apply successCB_throws | exact Hstage].
Qed.

Lemma email_mismatch_is_not_rejected_witness :
  reports
    (fst (ProcessSignupTask.verifyBrowserId Demo.ext Demo.generous
            Faults.verifiedForMallory Faults.aliceWithMallorysChain))
    CHALLENGE_INVALID_BROWSERID = false /\
  pends
    (fst (ProcessSignupTask.verifyBrowserId Demo.ext Demo.generous
            Faults.verifiedForMallory Faults.aliceWithMallorysChain))
    = false /\
  (ProcessSignupTask.verifyBrowserId Demo.ext Demo.generous
     Faults.verifiedForMallory Faults.aliceWithMallorysChain
     = (Continue (Plain Undefined), Faults.aliceWithMallorysChain) \/
   exists e,
     ProcessSignupTask.verifyBrowserId Demo.ext Demo.generous
       Faults.verifiedForMallory Faults.aliceWithMallorysChain
       = (Fail e, Faults.aliceWithMallorysChain)) /\
  (forall claimed pk principal,
      exists e,
        ProcessSignupTask.successCB Demo.ext Demo.generous DeferFunction
          Faults.verifiedForMallory claimed pk principal = Throw e) /\
  (because (ProcessSignupTask.msg Faults.aliceWithMallorysChain)
     = Obj [("browserid", Faults.verifiedForMallory)] ->
   ProcessSignupTask.log
     (snd (ProcessSignupTask.challengeStage Demo.ext Demo.generous
             Faults.aliceWithMallorysChain))
     = ProcessSignupTask.log Faults.aliceWithMallorysChain /\
   (fst (ProcessSignupTask.challengeStage Demo.ext Demo.generous
           Faults.aliceWithMallorysChain) = Continue Undefined \/
    exists e,
      fst (ProcessSignupTask.challengeStage Demo.ext Demo.generous
             Faults.aliceWithMallorysChain) = Fail e)).
Proof.
  apply (email_mismatch_is_not_rejected Demo.ext Demo.generous
           Faults.verifiedForMallory Faults.aliceWithMallorysChain
           Demo.aliceWithBoth Faults.verifiedForMallory
           "alice@example.org"); reflexivity.
Defined.

(** On that input the chain verifier calls the success callback, which
    throws; the task is rejected and the peer is told nothing. *)
Example mismatch_goes_unanswered :
  ProcessSignupTask.run Demo.ext Demo.generous
    (Cases.wellFormed Demo.aliceWithBoth (Demo.browseridWith "valid"))
    (Demo.connOf Demo.emptyStore)
  = (Rejected TypeError, Faults.aliceWithMallorysChain).
Proof. reflexivity. Qed.

(** Every path through the success callback ends in a throw. *)
Example success_callback_delivers_nothing :
  ProcessSignupTask.successCB Demo.ext Demo.generous DeferFunction
    (Obj [("certificates", Str "valid"); ("assertion", Str "token")])
    (Str "alice@example.org")
    (Str "pk") (Obj [("email", Str "mallory@example.org")])
  = Throw TypeError.
Proof. reflexivity. Qed.

(** A profile that only has the validated plural field makes the verifier
    throw. *)
Example plural_only_profile_throws (g : Globals) :
  fst (ProcessSignupTask.verifyBrowserId Demo.ext g
         (Obj [("certificates", Str "valid"); ("assertion", Str "token")])
         (Cases.atChallengeStage
            (Cases.wellFormed Demo.aliceWithEmails
               (Demo.browseridWith "valid"))
            Demo.aliceWithEmails))
  = Fail TypeError.
Proof. reflexivity. Qed.

(** ** C8: a verifier that fails synchronously *)

(** [C8] (defect in the code).  The claim is that a synchronous failing
    outcome is what the peer is sent.  When the verifier for a supported
    name returns a truthy value [v], the loop does not use [v]: it evaluates
    the undeclared [problemo], so it throws, or sends whatever that global
    holds. *)
Theorem synchronous_failure_is_not_relayed
    (ext : Externals) (g : Globals) (this : ProcessSignupTask.This)
    (name : string) (rest : list string) (promises : list Promise)
    (v : value) :
  ProcessSignupTask.indexOf_found (ProcessSignupTask.challenges this) name
    = true ->
  ProcessSignupTask.challengeSwitch ext g name this
    = (Continue (Plain v), this) ->
  truthy v = true ->
  ProcessSignupTask.challengeLoop ext g (name :: rest) promises this =
  if has_Q g then
    match problemo g with
    | Some challengeType =>
        ProcessSignupTask.respondWithChallenge challengeType this
    | None => (Fail (ReferenceError "problemo"), this)
    end
  else (Fail (ReferenceError "$Q"), this).
Proof.
  intros Hsupported Hswitch Htruthy.
  simpl. unfold bind at 1, get at 1. rewrite Hsupported. simpl.
  unfold bind at 1. rewrite Hswitch.
  unfold bind at 1, lift at 1, lookup_global.
  destruct (has_Q g); [| reflexivity].
  rewrite Htruthy. destruct (problemo g); reflexivity.
Qed.

Lemma synchronous_failure_is_not_relayed_witness :
  ProcessSignupTask.challengeLoop Demo.ext Demo.libsOnly ["browserid"] []
    (Cases.atChallengeStage Cases.signupWithBrowserid Demo.alicePoco)
  = (Fail (ReferenceError "problemo"),
     Cases.atChallengeStage Cases.signupWithBrowserid Demo.alicePoco).
Proof.
  apply (synchronous_failure_is_not_relayed Demo.ext Demo.libsOnly
           (Cases.atChallengeStage Cases.signupWithBrowserid Demo.alicePoco)
           "browserid" [] [] (Str CHALLENGE_INVALID_BROWSERID));
    reflexivity.
Defined.

(** ** C9: the display name *)

(** [C9] (the claim as stated fails).  A bundle whose [displayName] is
    present and is the empty string is not rejected: the validator resolves
    with the valid bits and the identity is signed up. *)
Lemma empty_displayName_is_accepted :
  let poco := Obj [("displayName", Str "")] in
  Cases.signupWithEmptyName = Cases.wellFormed poco (Obj []) /\
  get_prop poco "displayName" = Normal (Str "") /\
  ValidateSignupRequestTask.run Demo.ext Cases.signupWithEmptyName
    "client-key" (Demo.cfg Demo.emptyStore) <> Bool false /\
  peerView
    (ProcessSignupTask.events Demo.ext module_globals
       Cases.signupWithEmptyName (Demo.connOf Demo.emptyStore))
  = [WriteMessage signedUpMessage; Close].
Proof. repeat split; try reflexivity. discriminate. Qed.

(** [C9] (as amended).  The validator rejects every bundle whose poco has no
    own [displayName] property.  When the self-ident names this server the
    first step fails with a malformed-payload error; the validation task
    resolves with [false], and the signup task answers with the [never]
    challenge and closes. *)
Theorem missing_displayName_is_rejected
    (ext : Externals) (g : Globals) (m : Msg) (c : Conn)
    (p transit poco : value) :
  assertGetPersonSelfIdent ext (selfIdent m) Null = Normal p ->
  get_prop p "transitServerIdent" = Normal transit ->
  strict_eq_str transit (selfIdentBlob (serverConfig c)) = true ->
  get_prop p "poco" = Normal poco ->
  has_own_property poco "displayName" = Normal false ->
  ValidateSignupRequestTask.raw ext m (clientPublicKey c) (serverConfig c)
    = Fail MalformedPayloadError /\
  ValidateSignupRequestTask.run ext m (clientPublicKey c) (serverConfig c)
    = Bool false /\
  ProcessSignupTask.events ext g m c = [WriteMessage neverMessage; Close].
Proof.
  intros Hp Ht Hus Hpoco Hhas.
  pose proof (missing_displayName_raises ext m (clientPublicKey c)
                (serverConfig c) p transit poco Hp Ht Hpoco Hhas) as Hraw.
  rewrite Hus in Hraw.
  pose proof (raw_failure_is_soft ext m _ _ _ Hraw) as V.
  destruct (invalid_request_gets_never ext g m c) as (this' & R & L);
    [rewrite V; reflexivity |].
  unfold ProcessSignupTask.events. rewrite R. simpl. rewrite L.
  auto.
Qed.

Lemma missing_displayName_is_rejected_witness :
  ValidateSignupRequestTask.raw Demo.ext Cases.signupWithoutName
    (clientPublicKey (Demo.connOf Demo.emptyStore))
    (serverConfig (Demo.connOf Demo.emptyStore))
    = Fail MalformedPayloadError /\
  ValidateSignupRequestTask.run Demo.ext Cases.signupWithoutName
    (clientPublicKey (Demo.connOf Demo.emptyStore))
    (serverConfig (Demo.connOf Demo.emptyStore))
    = Bool false /\
  ProcessSignupTask.events Demo.ext module_globals Cases.signupWithoutName
    (Demo.connOf Demo.emptyStore) = [WriteMessage neverMessage; Close].
Proof.
  apply (missing_displayName_is_rejected Demo.ext module_globals
           Cases.signupWithoutName (Demo.connOf Demo.emptyStore)
           (Demo.identWith "server-blob"
              (Obj [("emails", Arr [Str "alice@example.org"])]))
           (Str "server-blob")
           (Obj [("emails", Arr [Str "alice@example.org"])]));
    reflexivity.
Defined.

(** Without the property and naming another server, the bundle is rejected
    all the same, for the other reason. *)
Example missing_displayName_elsewhere :
  ProcessSignupTask.events Demo.ext module_globals
    (Demo.bundle (Demo.identWith "other-server-blob" (Obj []))
       (Arr [Demo.authFor "client-key"]) (Obj []))
    (Demo.connOf Demo.emptyStore)
  = [WriteMessage neverMessage; Close].
Proof. reflexivity. Qed.

(** ** C10: the connection-level verifiers *)

(** [C10].  The endpoint table has the two endpoints [signup.deuxdrop] and
    [phonebook.deuxdrop], and the [authVerifier] of each accepts every
    endpoint name and every client key. *)
Theorem every_client_is_admitted (cfg : ServerConfig) :
  map fst (makeServerDef cfg) = ["signup.deuxdrop"; "phonebook.deuxdrop"] /\
  Forall (fun entry =>
            forall (endpoint : string) (clientKey : value),
              authVerifier (snd entry) endpoint clientKey = true)
    (makeServerDef cfg).
Proof.
  split; [reflexivity |].
  repeat constructor.
Qed.

(** * Further properties *)

(** ** Validation: further properties *)

(** [X1].  When the validation task does not resolve with [false], it
    resolves with the valid bits of a bundle whose self-ident parsed, names
    this server and shows a [displayName], and whose authorizations are a
    non-empty array of blobs that all verify against the identity's
    long-term key, one of them naming exactly the peer's key; the own
    properties of the map are such blobs, one for every authorized name
    other than [__proto__]. *)
Theorem validation_success_is_sound
    (ext : Externals) (m : Msg) (peer : string) (cfg : ServerConfig) :
  ValidateSignupRequestTask.run ext m peer cfg <> Bool false ->
  exists p map,
    ValidateSignupRequestTask.run ext m peer cfg = validBits p (Obj map) /\
    Established ext m peer cfg p map.
Proof.
  intro Hne.
  destruct (validation_shape ext m peer cfg) as [V | (p & am & V)];
    [contradiction |].
  destruct (validated_established ext m peer cfg p (Obj am) V)
    as (map & E & Est).
  inversion E; subst. eauto.
Qed.

Lemma validation_success_is_sound_witness :
  exists p map,
    ValidateSignupRequestTask.run Demo.ext Faults.signupWithTwoClients
      "client-key" (Demo.cfg Demo.emptyStore) = validBits p (Obj map) /\
    Established Demo.ext Faults.signupWithTwoClients "client-key"
      (Demo.cfg Demo.emptyStore) p map.
Proof.
  apply (validation_success_is_sound Demo.ext Faults.signupWithTwoClients
           "client-key" (Demo.cfg Demo.emptyStore)).
  discriminate.
Defined.

(** [X2].  Conversely, a bundle whose self-ident parses, names this server
    and shows a [displayName], and whose authorizations all verify against
    the long-term key, name string keys and include the peer's key,
    validates: the task resolves with valid bits carrying the parsed
    payload. *)
Theorem authorized_bundle_validates
    (ext : Externals) (m : Msg) (peer : string) (cfg : ServerConfig)
    (p poco root longterm : value) (blobs : list value) :
  assertGetPersonSelfIdent ext (selfIdent m) Null = Normal p ->
  get_prop p "transitServerIdent" = Normal (Str (selfIdentBlob cfg)) ->
  get_prop p "poco" = Normal poco ->
  has_own_property poco "displayName" = Normal true ->
  clientAuths m = Arr blobs ->
  get_prop p "root" = Normal root ->
  get_prop root "longtermSignPubKey" = Normal longterm ->
  Forall (fun blob => exists s, attests ext [longterm] blob (Str s)) blobs ->
  Exists (fun blob => attests ext [longterm] blob (Str peer)) blobs ->
  exists map,
    ValidateSignupRequestTask.run ext m peer cfg = validBits p (Obj map).
Proof.
  intros Hp Ht Hpoco Hhas Hauths Hroot Hlong Hall Hpeer.
  destruct (checkClientAuths_runs ext [longterm] peer blobs Hall false
              emptyLiteral)
    as (found & map & Hloop).
  assert (Hfound : found = true).
  { apply (checkClientAuths_completes ext [longterm] peer blobs
             false emptyLiteral found map Hloop).
    right. exact Hpeer. }
  subst found. exists (members map).
  rewrite validation_of_raw.
  unfold ValidateSignupRequestTask.raw, ValidateSignupRequestTask.steps.
  simpl run_steps.
  unfold ValidateSignupRequestTask.validateSelfIdent,
    ValidateSignupRequestTask.validateClientAuth.
  unfold_task.
  cbn -[ValidateSignupRequestTask.checkClientAuths].
  rewrite Hp. cbn -[ValidateSignupRequestTask.checkClientAuths].
  rewrite Ht. cbn -[ValidateSignupRequestTask.checkClientAuths].
  rewrite String.eqb_refl. cbn -[ValidateSignupRequestTask.checkClientAuths].
  rewrite Hpoco. cbn -[ValidateSignupRequestTask.checkClientAuths].
  rewrite Hhas. cbn -[ValidateSignupRequestTask.checkClientAuths].
  rewrite Hauths.
  destruct blobs as [| blob0 rest]; [inversion Hpeer |].
  cbn -[ValidateSignupRequestTask.checkClientAuths].
  rewrite Hroot. cbn -[ValidateSignupRequestTask.checkClientAuths].
  rewrite Hlong. cbn -[ValidateSignupRequestTask.checkClientAuths].
  rewrite Hloop. reflexivity.
Qed.

Lemma authorized_bundle_validates_witness :
  exists map,
    ValidateSignupRequestTask.run Demo.ext Faults.signupWithTwoClients
      "client-key" (Demo.cfg Demo.emptyStore)
    = validBits (Demo.identWith "server-blob" Demo.alicePoco) (Obj map).
Proof.
  apply (authorized_bundle_validates Demo.ext Faults.signupWithTwoClients
           "client-key" (Demo.cfg Demo.emptyStore)
           (Demo.identWith "server-blob" Demo.alicePoco)
           Demo.alicePoco
           (Obj [("rootSignPubKey", Str "root-key");
                 ("longtermSignPubKey", Str "longterm-key")])
           (Str "longterm-key")
           [Demo.authFor "other-key"; Demo.authFor "client-key"]);
    try reflexivity.
  - constructor; [| constructor; [| constructor]].
    + exists "other-key", (Demo.authFor "other-key"). split; reflexivity.
    + exists "client-key", (Demo.authFor "client-key"). split; reflexivity.
  - right. left. exists (Demo.authFor "client-key"). split; reflexivity.
Defined.

(** [X3].  There is no partial acceptance: if one authorization of the
    bundle does not verify against the identity's long-term key, the
    validation task resolves with [false] and the signup is answered with
    [never], whatever the other authorizations are (one of them may well
    name the peer). *)
Theorem one_failed_authorization_rejects_the_bundle
    (ext : Externals) (g : Globals) (m : Msg) (c : Conn)
    (p root longterm bad : value) (blobs : list value) (e : error) :
  assertGetPersonSelfIdent ext (selfIdent m) Null = Normal p ->
  get_prop p "root" = Normal root ->
  get_prop root "longtermSignPubKey" = Normal longterm ->
  clientAuths m = Arr blobs ->
  In bad blobs ->
  assertCheckGetAttestation ext bad "client" [longterm] = Throw e ->
  ValidateSignupRequestTask.run ext m (clientPublicKey c) (serverConfig c)
    = Bool false /\
  ProcessSignupTask.events ext g m c = [WriteMessage neverMessage; Close].
Proof.
  intros Hp Hroot Hlong Hauths Hin Hbad.
  assert (V : ValidateSignupRequestTask.run ext m (clientPublicKey c)
                (serverConfig c) = Bool false).
  { rewrite validation_of_raw.
    unfold ValidateSignupRequestTask.raw, ValidateSignupRequestTask.steps.
    simpl run_steps.
    unfold ValidateSignupRequestTask.validateSelfIdent,
      ValidateSignupRequestTask.validateClientAuth.
    unfold_task. simpl. rewrite Hp. simpl.
    destruct (get_prop p "transitServerIdent") as [t | e0]; simpl; auto.
    destruct (strict_eq_str t (selfIdentBlob (serverConfig c))); simpl; auto.
    destruct (get_prop p "poco") as [poco | e0]; simpl; auto.
    destruct (has_own_property poco "displayName") as [[] | e0]; simpl; auto.
    rewrite Hauths.
    destruct (Nat.eqb (List.length blobs) 0); simpl; auto.
    rewrite Hroot. simpl. rewrite Hlong. simpl.
    destruct (checkClientAuths_stops ext [longterm] (clientPublicKey c)
                blobs bad e Hin Hbad false emptyLiteral) as (e' & ->).
    reflexivity. }
  split; [exact V |].
  destruct (invalid_request_gets_never ext g m c) as (this' & R & L);
    [rewrite V; reflexivity |].
  unfold ProcessSignupTask.events. rewrite R. exact L.
Qed.

Lemma one_failed_authorization_rejects_the_bundle_witness :
  ValidateSignupRequestTask.run Demo.ext Faults.signupWithForgedAuth
    (clientPublicKey (Demo.connOf Demo.emptyStore))
    (serverConfig (Demo.connOf Demo.emptyStore))
    = Bool false /\
  ProcessSignupTask.events Demo.ext module_globals
    Faults.signupWithForgedAuth (Demo.connOf Demo.emptyStore)
  = [WriteMessage neverMessage; Close].
Proof.
  apply (one_failed_authorization_rejects_the_bundle Demo.ext module_globals
           Faults.signupWithForgedAuth (Demo.connOf Demo.emptyStore)
           (Demo.identWith "server-blob" Demo.alicePoco)
           (Obj [("rootSignPubKey", Str "root-key");
                 ("longtermSignPubKey", Str "longterm-key")])
           (Str "longterm-key")
           Faults.forgedAuth
           [Demo.authFor "client-key"; Faults.forgedAuth]
           (ExternalError "keyops"));
    try reflexivity.
  right. left. reflexivity.
Defined.

(** [X4].  In the valid bits, [clientAuthsMap] is an object whose own
    properties are all blobs of the bundle, verified, each under the name of
    the key it authorizes; and when the peer's key is not the name
    [__proto__] (an assignment to which need not add a property), the map
    has an own property under the peer's key. *)
Theorem peer_is_filed_in_the_map
    (ext : Externals) (m : Msg) (peer : string) (cfg : ServerConfig)
    (p am : value) :
  ValidateSignupRequestTask.run ext m peer cfg = validBits p am ->
  peer <> "__proto__" ->
  exists own blobs root longterm blob,
    am = Obj own /\
    clientAuths m = Arr blobs /\
    get_prop p "root" = Normal root /\
    get_prop root "longtermSignPubKey" = Normal longterm /\
    assoc peer own = Some blob /\
    In blob blobs /\
    filedAs ext [longterm] blob peer /\
    forall name entry,
      assoc name own = Some entry ->
      In entry blobs /\ filedAs ext [longterm] entry name.
Proof.
  intros V Hpeer0.
  destruct (validated_established ext m peer cfg p am V)
    as (map & -> & Hp & Hus & Hname & blobs & root & longterm
        & Hauths & Hne & Hroot & Hlong & Hall & Hpeer & Hentries & Hkeys).
  assert (Hfiled : has_key peer map = true).
  { apply (Hkeys peer Hpeer0). apply Exists_exists in Hpeer.
    destruct Hpeer as (b & Hin & Hb). apply Exists_exists.
    exists b. split; [exact Hin |]. exists (Str peer). split; auto. }
  unfold has_key in Hfiled.
  destruct (assoc peer map) as [blob |] eqn:Hassoc; [| discriminate].
  destruct (Hentries peer blob Hassoc) as [Hin Hf].
  exists map, blobs, root, longterm, blob.
  split; [reflexivity |].
  split; [exact Hauths |]. split; [exact Hroot |]. split; [exact Hlong |].
  split; [exact Hassoc |].
  split; [exact Hin |]. split; [exact Hf |].
  exact Hentries.
Qed.

Lemma peer_is_filed_in_the_map_witness :
  exists own blobs root longterm blob,
    Obj [("other-key", Demo.authFor "other-key");
         ("client-key", Demo.authFor "client-key")] = Obj own /\
    clientAuths Faults.signupWithTwoClients = Arr blobs /\
    get_prop (Demo.identWith "server-blob" Demo.alicePoco) "root"
      = Normal root /\
    get_prop root "longtermSignPubKey" = Normal longterm /\
    assoc "client-key" own = Some blob /\
    In blob blobs /\
    filedAs Demo.ext [longterm] blob "client-key" /\
    forall name entry,
      assoc name own = Some entry ->
      In entry blobs /\ filedAs Demo.ext [longterm] entry name.
Proof.
  apply (peer_is_filed_in_the_map Demo.ext Faults.signupWithTwoClients
           "client-key" (Demo.cfg Demo.emptyStore)
           (Demo.identWith "server-blob" Demo.alicePoco)
           (Obj [("other-key", Demo.authFor "other-key");
                 ("client-key", Demo.authFor "client-key")])).
  - reflexivity.
  - discriminate.
Defined.

(** [X5].  A bundle whose self-ident passes the first step but whose
    [clientAuths] is not an array, or is an empty one, fails the second
    step as a malformed payload, before any key is looked at. *)
Theorem missing_authorizations_are_malformed
    (ext : Externals) (m : Msg) (peer : string) (cfg : ServerConfig)
    (p poco : value) :
  assertGetPersonSelfIdent ext (selfIdent m) Null = Normal p ->
  get_prop p "transitServerIdent" = Normal (Str (selfIdentBlob cfg)) ->
  get_prop p "poco" = Normal poco ->
  has_own_property poco "displayName" = Normal true ->
  is_array (clientAuths m) = false \/ clientAuths m = Arr [] ->
  ValidateSignupRequestTask.raw ext m peer cfg = Fail MalformedPayloadError.
Proof.
  intros Hp Ht Hpoco Hhas Hauths.
  unfold ValidateSignupRequestTask.raw, ValidateSignupRequestTask.steps.
  simpl run_steps.
  unfold ValidateSignupRequestTask.validateSelfIdent,
    ValidateSignupRequestTask.validateClientAuth.
  unfold_task. simpl. rewrite Hp. simpl. rewrite Ht. simpl.
  rewrite String.eqb_refl. simpl. rewrite Hpoco. simpl. rewrite Hhas. simpl.
  destruct Hauths as [Hauths | ->]; [| reflexivity].
  destruct (clientAuths m); try reflexivity. discriminate.
Qed.

Lemma missing_authorizations_are_malformed_witness :
  ValidateSignupRequestTask.raw Demo.ext Cases.signupWithoutAuths
    "client-key" (Demo.cfg Demo.emptyStore)
  = Fail MalformedPayloadError.
Proof.
  apply (missing_authorizations_are_malformed Demo.ext
           Cases.signupWithoutAuths "client-key" (Demo.cfg Demo.emptyStore)
           (Demo.identWith "server-blob" Demo.alicePoco) Demo.alicePoco);
    try reflexivity.
  left. reflexivity.
Defined.

(** ** The whole run: further properties *)

(** [X6].  A run of the signup task is rejected only when the existence
    check fails, the challenge step throws or the creation fails, with that
    very error; and a rejected run has written nothing to the peer and has
    not closed the connection. *)
Theorem rejected_run_leaves_the_connection_alone
    (ext : Externals) (g : Globals) (m : Msg) (c : Conn)
    (e : error) (this' : ProcessSignupTask.This) :
  ProcessSignupTask.run ext g m c = (Rejected e, this') ->
  peerView (ProcessSignupTask.log this') = [] /\
  exists p am k,
    validatedAs ext m c p am /\ keyOf p k /\
    (storeCheck c k = Throw e \/
     gateOutcome ext g m c p am k = Fail e \/
     exists dn, displayNameOf p dn /\ storeCreate m c p am dn = Throw e).
Proof.
  intro R. apply run_course in R.
  inversion R as [| p am e0 V NK | p am k e0 V K F | | p am k v e0 V K F T G
                 | | p am k v e0 V K F T G ND
                 | p am k v dn e0 V K F T G D Cr |]; subst.
  - exfalso. destruct (validated_is_readable ext m c p am V) as [[k K] _].
    exact (NK k K).
  - split; [reflexivity |]. exists p, am, k. auto.
  - split; [reflexivity |]. exists p, am, k. auto.
  - exfalso. destruct (validated_is_readable ext m c p am V) as [_ [dn D]].
    exact (ND dn D).
  - split; [reflexivity |]. exists p, am, k. repeat split; auto.
    right. right. exists dn. auto.
Qed.

Lemma rejected_run_leaves_the_connection_alone_witness :
  peerView
    (ProcessSignupTask.log
       (snd (ProcessSignupTask.run Demo.ext module_globals Cases.plainSignup
               (Demo.connOf Faults.readOnlyStore)))) = [] /\
  exists p am k,
    validatedAs Demo.ext Cases.plainSignup
      (Demo.connOf Faults.readOnlyStore) p am /\
    keyOf p k /\
    (storeCheck (Demo.connOf Faults.readOnlyStore) k
       = Throw (ExternalError "store") \/
     gateOutcome Demo.ext module_globals Cases.plainSignup
       (Demo.connOf Faults.readOnlyStore) p am k
       = Fail (ExternalError "store") \/
     exists dn,
       displayNameOf p dn /\
       storeCreate Cases.plainSignup (Demo.connOf Faults.readOnlyStore)
         p am dn = Throw (ExternalError "store")).
Proof.
  apply (rejected_run_leaves_the_connection_alone Demo.ext module_globals
           Cases.plainSignup (Demo.connOf Faults.readOnlyStore)
           (ExternalError "store")).
  reflexivity.
Defined.

(** [X7].  The account store is asked whether an account exists only for a
    bundle that validated, and about the root signing key of its payload:
    the self-ident names this server and one verified authorization names
    the connected peer. *)
Theorem store_is_asked_only_after_validation
    (ext : Externals) (g : Globals) (m : Msg) (c : Conn) (k : value) :
  In (CheckUserAccount k) (ProcessSignupTask.events ext g m c) ->
  exists p map,
    validatedAs ext m c p (Obj map) /\
    keyOf p k /\
    Established ext m (clientPublicKey c) (serverConfig c) p map.
Proof.
  unfold ProcessSignupTask.events.
  destruct (ProcessSignupTask.run ext g m c) as [r this'] eqn:R.
  apply run_course in R. simpl. intro Hin.
  assert (H : exists p am, validatedAs ext m c p am /\ keyOf p k).
  { inversion R; subst; match goal with
      | H : _ = ProcessSignupTask.log this' |- _ => rewrite <- H in Hin
      end; simpl in Hin;
      repeat (destruct Hin as [Hin | Hin]; try discriminate);
      try contradiction; inversion Hin; subst; eauto. }
  destruct H as (p & am & V & K).
  destruct (validated_established ext m _ _ p am V) as (map & -> & Est).
  exists p, map. auto.
Qed.

Lemma store_is_asked_only_after_validation_witness :
  exists p map,
    validatedAs Demo.ext Cases.plainSignup (Demo.connOf Demo.fullStore)
      p (Obj map) /\
    keyOf p (Str "root-key") /\
    Established Demo.ext Cases.plainSignup
      (clientPublicKey (Demo.connOf Demo.fullStore))
      (serverConfig (Demo.connOf Demo.fullStore)) p map.
Proof.
  apply (store_is_asked_only_after_validation Demo.ext module_globals
           Cases.plainSignup (Demo.connOf Demo.fullStore) (Str "root-key")).
  left. reflexivity.
Defined.

(** [X8].  Whenever a run calls [serverCreateUserAccount], it does so once,
    right after the existence check of the same identity was answered with a
    falsy value and the challenge step let the task go on; the call passes
    the validated payload and authorization map, the self-ident blob and the
    store keyring exactly as the message carried them, and a public listing
    made of the profile's [displayName] alone. *)
Theorem account_creation_is_guarded_and_verbatim
    (ext : Externals) (g : Globals) (m : Msg) (c : Conn)
    (p raw am kr info : value) :
  In (CreateUserAccount p raw am kr info)
     (ProcessSignupTask.events ext g m c) ->
  validatedAs ext m c p am /\
  raw = selfIdent m /\
  kr = storeKeyring m /\
  (exists dn, displayNameOf p dn /\ info = Obj [("displayName", dn)]) /\
  exists k v rest,
    keyOf p k /\
    storeCheck c k = Normal v /\ truthy v = false /\
    proceeds (gateOutcome ext g m c p am k) = true /\
    ProcessSignupTask.events ext g m c
      = CheckUserAccount k :: CreateUserAccount p raw am kr info :: rest /\
    existsb isStoreCall rest = false.
Proof.
  unfold ProcessSignupTask.events.
  destruct (ProcessSignupTask.run ext g m c) as [r this'] eqn:R.
  apply run_course in R. simpl. intro Hin.
  inversion R as [| | | | | |
                 | p' am' k v dn e0 V K F T G D Cr H1 H2
                 | p' am' k v dn created V K F T G D Cr H1 H2];
    try (match goal with
         | H : _ = ProcessSignupTask.log this' |- _ => rewrite <- H in Hin
         end; simpl in Hin;
         repeat (destruct Hin as [Hin | Hin]; try discriminate);
         contradiction);
    rewrite <- H2 in Hin; simpl in Hin;
    repeat (destruct Hin as [Hin | Hin]; try discriminate);
    try contradiction;
    unfold creationEvent in Hin; inversion Hin; subst;
    (split; [exact V |]); (split; [reflexivity |]);
    (split; [reflexivity |]); (split; [exists dn; auto |]).
  - exists k, v, []. repeat split; auto.
  - exists k, v, [WriteMessage signedUpMessage; Close]. repeat split; auto.
Qed.

Lemma account_creation_is_guarded_and_verbatim_witness :
  validatedAs Demo.ext Cases.plainSignup (Demo.connOf Demo.emptyStore)
    (Demo.identWith "server-blob" Demo.alicePoco)
    (Obj [("client-key", Demo.authFor "client-key")]) /\
  Demo.identWith "server-blob" Demo.alicePoco
    = selfIdent Cases.plainSignup /\
  Str "keyring" = storeKeyring Cases.plainSignup /\
  (exists dn,
      displayNameOf (Demo.identWith "server-blob" Demo.alicePoco) dn /\
      Obj [("displayName", Str "Alice")] = Obj [("displayName", dn)]) /\
  exists k v rest,
    keyOf (Demo.identWith "server-blob" Demo.alicePoco) k /\
    storeCheck (Demo.connOf Demo.emptyStore) k = Normal v /\
    truthy v = false /\
    proceeds
      (gateOutcome Demo.ext module_globals Cases.plainSignup
         (Demo.connOf Demo.emptyStore)
         (Demo.identWith "server-blob" Demo.alicePoco)
         (Obj [("client-key", Demo.authFor "client-key")]) k) = true /\
    ProcessSignupTask.events Demo.ext module_globals Cases.plainSignup
      (Demo.connOf Demo.emptyStore)
      = CheckUserAccount k
          :: CreateUserAccount
               (Demo.identWith "server-blob" Demo.alicePoco)
               (Demo.identWith "server-blob" Demo.alicePoco)
               (Obj [("client-key", Demo.authFor "client-key")])
               (Str "keyring")
               (Obj [("displayName", Str "Alice")])
          :: rest /\
    existsb isStoreCall rest = false.
Proof.
  apply (account_creation_is_guarded_and_verbatim Demo.ext module_globals
           Cases.plainSignup (Demo.connOf Demo.emptyStore)).
  right. left. reflexivity.
Defined.

(** [X9].  The peer is told [signedUp] only after [serverCreateUserAccount]
    was called for the bundle and succeeded. *)
Theorem signedUp_means_the_account_was_created
    (ext : Externals) (g : Globals) (m : Msg) (c : Conn) :
  In (WriteMessage signedUpMessage) (ProcessSignupTask.events ext g m c) ->
  fst (ProcessSignupTask.run ext g m c) = Resolved Undefined /\
  exists p am dn created,
    In (creationEvent m p am dn) (ProcessSignupTask.events ext g m c) /\
    storeCreate m c p am dn = Normal created.
Proof.
  unfold ProcessSignupTask.events.
  destruct (ProcessSignupTask.run ext g m c) as [r this'] eqn:R.
  apply run_course in R. simpl. intro Hin.
  inversion R as [| | | | | | |
                 | p am k v dn created V K F T G D Cr H1 H2];
    try (match goal with
         | H : _ = ProcessSignupTask.log this' |- _ => rewrite <- H in Hin
         end; simpl in Hin;
         repeat (destruct Hin as [Hin | Hin]; try discriminate);
         contradiction).
  split; [reflexivity |].
  exists p, am, dn, created. split; [| exact Cr].
  right. left. reflexivity.
Qed.

Lemma signedUp_means_the_account_was_created_witness :
  fst (ProcessSignupTask.run Demo.ext module_globals Cases.plainSignup
         (Demo.connOf Demo.emptyStore)) = Resolved Undefined /\
  exists p am dn created,
    In (creationEvent Cases.plainSignup p am dn)
       (ProcessSignupTask.events Demo.ext module_globals Cases.plainSignup
          (Demo.connOf Demo.emptyStore)) /\
    storeCreate Cases.plainSignup (Demo.connOf Demo.emptyStore) p am dn
      = Normal created.
Proof.
  apply (signedUp_means_the_account_was_created Demo.ext module_globals
           Cases.plainSignup (Demo.connOf Demo.emptyStore)).
  right. right. left. reflexivity.
Defined.

(** Bring the facts of a course in line with the ones at hand. *)
Ltac same_course ext m c :=
  repeat match goal with
    | V : validatedAs ext m c ?p ?am, V' : validatedAs ext m c ?p' ?am' |- _ =>
        first [ constr_eq p p'; constr_eq am am'; clear V'
              | destruct (validatedAs_functional ext m c p am p' am' V V');
                subst p' am' ]
    | K : keyOf ?p ?k, K' : keyOf ?p ?k' |- _ =>
        first [ constr_eq k k'; clear K'
              | pose proof (keyOf_functional p k k' K K'); subst k' ]
    | D : displayNameOf ?p ?d, D' : displayNameOf ?p ?d' |- _ =>
        first [ constr_eq d d'; clear D'
              | pose proof (displayNameOf_functional p d d' D D'); subst d' ]
    end.

(** [X10].  Open signup: for a bundle that validates, when the store knows
    no account for its root key, [because] holds no name of the catalog and
    the creation succeeds, the task resolves after exactly these events:
    the check, the creation, the [signedUp] message and the closing of the
    connection.  Names of [because] outside the catalog change nothing. *)
Theorem open_signup_succeeds
    (ext : Externals) (g : Globals) (m : Msg) (c : Conn)
    (p am k v dn created : value) :
  validatedAs ext m c p am ->
  keyOf p k ->
  storeCheck c k = Normal v -> truthy v = false ->
  (forall name, In name (for_in_keys (because m)) ->
                name <> "none" /\ name <> "browserid") ->
  displayNameOf p dn ->
  storeCreate m c p am dn = Normal created ->
  fst (ProcessSignupTask.run ext g m c) = Resolved Undefined /\
  ProcessSignupTask.events ext g m c
    = [CheckUserAccount k; creationEvent m p am dn;
       WriteMessage signedUpMessage; Close].
Proof.
  intros V K F T Hnames D Cr.
  assert (G : gateOutcome ext g m c p am k = Continue Undefined).
  { apply gate_passes_on_unsupported. intros name Hin.
    destruct (Hnames name Hin) as [N1 N2]. simpl.
    apply String.eqb_neq in N1. apply String.eqb_neq in N2.
    rewrite N1, N2. reflexivity. }
  unfold ProcessSignupTask.events.
  destruct (ProcessSignupTask.run ext g m c) as [r this'] eqn:R.
  apply run_course in R. simpl.
  inversion R as [V0 | p0 am0 e0 V0 NK | p0 am0 k0 e0 V0 K0 F0
                 | p0 am0 k0 v0 V0 K0 F0 T0
                 | p0 am0 k0 v0 e0 V0 K0 F0 T0 G0
                 | p0 am0 k0 v0 ct V0 K0 F0 T0 G0 P0
                 | p0 am0 k0 v0 e0 V0 K0 F0 T0 G0 ND
                 | p0 am0 k0 v0 dn0 e0 V0 K0 F0 T0 G0 D0 Cr0
                 | p0 am0 k0 v0 dn0 created0 V0 K0 F0 T0 G0 D0 Cr0];
    subst.
  - unfold validatedAs in V. rewrite V0 in V. discriminate.
  - same_course ext m c. exfalso. exact (NK k K).
  - same_course ext m c. rewrite F in F0. discriminate.
  - same_course ext m c. rewrite F in F0. inversion F0; subst.
    rewrite T in T0. discriminate.
  - same_course ext m c. rewrite G in G0. discriminate.
  - same_course ext m c. rewrite G in G0. discriminate.
  - same_course ext m c. exfalso. exact (ND dn D).
  - same_course ext m c. rewrite Cr in Cr0. discriminate.
  - same_course ext m c. split; reflexivity.
Qed.

Lemma open_signup_succeeds_witness :
  fst (ProcessSignupTask.run Demo.ext module_globals
         Faults.signupWithUnknownKinds (Demo.connOf Demo.emptyStore))
    = Resolved Undefined /\
  ProcessSignupTask.events Demo.ext module_globals
    Faults.signupWithUnknownKinds (Demo.connOf Demo.emptyStore)
  = [CheckUserAccount (Str "root-key");
     creationEvent Faults.signupWithUnknownKinds
       (Demo.identWith "server-blob" Demo.alicePoco)
       (Obj [("client-key", Demo.authFor "client-key")])
       (Str "Alice");
     WriteMessage signedUpMessage; Close].
Proof.
  apply (open_signup_succeeds Demo.ext module_globals
           Faults.signupWithUnknownKinds (Demo.connOf Demo.emptyStore)
           (Demo.identWith "server-blob" Demo.alicePoco)
           (Obj [("client-key", Demo.authFor "client-key")])
           (Str "root-key") (Bool false) (Str "Alice") Undefined);
    try reflexivity.
  - exists (Obj [("rootSignPubKey", Str "root-key");
                 ("longtermSignPubKey", Str "longterm-key")]).
    split; reflexivity.
  - intros name [<- | [<- | []]]; split; discriminate.
  - exists Demo.alicePoco. split; reflexivity.
Defined.

(** [X11].  When the creation fails, the task is rejected with the store's
    error after the check and the creation call; the peer is told nothing,
    in particular not [signedUp], and the connection is not closed by the
    task. *)
Theorem failed_creation_is_not_acknowledged
    (ext : Externals) (g : Globals) (m : Msg) (c : Conn)
    (p am k v dn : value) (e : error) :
  validatedAs ext m c p am ->
  keyOf p k ->
  storeCheck c k = Normal v -> truthy v = false ->
  proceeds (gateOutcome ext g m c p am k) = true ->
  displayNameOf p dn ->
  storeCreate m c p am dn = Throw e ->
  fst (ProcessSignupTask.run ext g m c) = Rejected e /\
  ProcessSignupTask.events ext g m c
    = [CheckUserAccount k; creationEvent m p am dn].
Proof.
  intros V K F T G D Cr.
  unfold ProcessSignupTask.events.
  destruct (ProcessSignupTask.run ext g m c) as [r this'] eqn:R.
  apply run_course in R. simpl.
  inversion R as [V0 | p0 am0 e0 V0 NK | p0 am0 k0 e0 V0 K0 F0
                 | p0 am0 k0 v0 V0 K0 F0 T0
                 | p0 am0 k0 v0 e0 V0 K0 F0 T0 G0
                 | p0 am0 k0 v0 ct V0 K0 F0 T0 G0 P0
                 | p0 am0 k0 v0 e0 V0 K0 F0 T0 G0 ND
                 | p0 am0 k0 v0 dn0 e0 V0 K0 F0 T0 G0 D0 Cr0
                 | p0 am0 k0 v0 dn0 created0 V0 K0 F0 T0 G0 D0 Cr0];
    subst.
  - unfold validatedAs in V. rewrite V0 in V. discriminate.
  - same_course ext m c. exfalso. exact (NK k K).
  - same_course ext m c. rewrite F in F0. discriminate.
  - same_course ext m c. rewrite F in F0. inversion F0; subst.
    rewrite T in T0. discriminate.
  - same_course ext m c. rewrite G0 in G. discriminate.
  - same_course ext m c. rewrite G0 in G. discriminate.
  - same_course ext m c. exfalso. exact (ND dn D).
  - same_course ext m c. rewrite Cr in Cr0. inversion Cr0.
    split; reflexivity.
  - same_course ext m c. rewrite Cr in Cr0. discriminate.
Qed.

Lemma failed_creation_is_not_acknowledged_witness :
  fst (ProcessSignupTask.run Demo.ext module_globals Cases.plainSignup
         (Demo.connOf Faults.readOnlyStore))
    = Rejected (ExternalError "store") /\
  ProcessSignupTask.events Demo.ext module_globals Cases.plainSignup
    (Demo.connOf Faults.readOnlyStore)
  = [CheckUserAccount (Str "root-key");
     creationEvent Cases.plainSignup
       (Demo.identWith "server-blob" Demo.alicePoco)
       (Obj [("client-key", Demo.authFor "client-key")])
       (Str "Alice")].
Proof.
  apply (failed_creation_is_not_acknowledged Demo.ext module_globals
           Cases.plainSignup (Demo.connOf Faults.readOnlyStore)
           (Demo.identWith "server-blob" Demo.alicePoco)
           (Obj [("client-key", Demo.authFor "client-key")])
           (Str "root-key") (Bool false) (Str "Alice")
           (ExternalError "store"));
    try reflexivity.
  - exists (Obj [("rootSignPubKey", Str "root-key");
                 ("longtermSignPubKey", Str "longterm-key")]).
    split; reflexivity.
  - exists Demo.alicePoco. split; reflexivity.
Defined.

(** ** The challenge step: further properties *)

(** [X12].  Names of [because] that the catalog does not list are ignored:
    the loop behaves on any list of names as it does on the supported ones
    among them, in the same order. *)
Theorem unsupported_kinds_are_ignored
    (ext : Externals) (g : Globals) (names : list string)
    (promises : list Promise) (this : ProcessSignupTask.This) :
  ProcessSignupTask.challengeLoop ext g names promises this =
  ProcessSignupTask.challengeLoop ext g
    (filter (ProcessSignupTask.indexOf_found
               (ProcessSignupTask.challenges this)) names)
    promises this.
Proof.
  revert promises.
  induction names as [| name rest IH]; intro promises; [reflexivity |].
  simpl filter. rewrite challengeLoop_turn.
  destruct (ProcessSignupTask.indexOf_found
              (ProcessSignupTask.challenges this) name) eqn:S;
    [| apply IH].
  rewrite challengeLoop_turn, S.
  destruct (quiet_cases (ProcessSignupTask.challengeSwitch ext g name) this
              (challengeSwitch_quiet ext g name)) as [[r Hr] | [e He]].
  - rewrite Hr. destruct (has_Q g); [| reflexivity].
    destruct r as [v | p]; [| apply IH].
    destruct (truthy v); [reflexivity | apply IH].
  - rewrite He. reflexivity.
Qed.

(** [X13].  Once the promises have all been kept, the challenge issued is
    the first truthy result, in the order of the promises; when no result is
    truthy nothing is issued and the task goes on. *)
Theorem first_failing_result_is_issued
    (results : list value) (this : ProcessSignupTask.This) :
  ProcessSignupTask.successish results this =
  match find truthy results with
  | Some challengeType =>
      ProcessSignupTask.respondWithChallenge challengeType this
  | None => (Continue Undefined, this)
  end.
Proof.
  induction results as [| r rest IH]; simpl.
  - reflexivity.
  - destruct (truthy r); [reflexivity | exact IH].
Qed.

(** ** The BrowserID verifier: further properties *)

(** [X14].  A profile that has no own [emails], or whose [emails] is an
    array other than one holding exactly one string (an empty array, several
    entries, or a single entry that is not a string), makes the verifier
    return [bad-browserid-assertion] at once: the task object is untouched
    and neither the assertion, the imported modules nor the globals
    matter.  (An [emails] that is not an array is another matter: on [null]
    the verifier throws.) *)
Theorem unusable_profile_fails_at_once
    (ext : Externals) (g : Globals) (assertion : value)
    (this : ProcessSignupTask.This) (fields : list (string * value)) :
  get_prop (ProcessSignupTask.selfIdentPayload this) "poco"
    = Normal (Obj fields) ->
  has_key "hasOwnProperty" fields = false ->
  (assoc "emails" fields = None \/
   exists addresses,
     assoc "emails" fields = Some (Arr addresses) /\
     forall address, addresses <> [Str address]) ->
  ProcessSignupTask.verifyBrowserId ext g assertion this
  = (Continue (Plain (Str CHALLENGE_INVALID_BROWSERID)), this).
Proof.
  intros Hpoco Hown Hemails.
  unfold ProcessSignupTask.verifyBrowserId. unfold_task.
  rewrite Hpoco. simpl. rewrite Hown. unfold has_key.
  destruct Hemails as [-> | (addresses & -> & Hnot)]; [reflexivity |].
  cbn -[Z.of_nat List.length strict_eq_num].
  destruct addresses as [| first [| second more]].
  - reflexivity.
  - simpl. destruct first; try reflexivity.
    exfalso. apply (Hnot s). reflexivity.
  - assert (L : strict_eq_num
                  (Num (Z.of_nat (List.length (first :: second :: more)))) 1
                = false).
    { unfold strict_eq_num. apply Z.eqb_neq. simpl List.length. lia. }
    rewrite L. reflexivity.
Qed.

Lemma unusable_profile_fails_at_once_witness :
  ProcessSignupTask.verifyBrowserId Demo.ext module_globals (Str "anything")
    (Cases.atChallengeStage Cases.signupWithBrowserid
       (Obj [("displayName", Str "Alice");
             ("emails", Arr [Str "a@example.org"; Str "b@example.org"])]))
  = (Continue (Plain (Str CHALLENGE_INVALID_BROWSERID)),
     Cases.atChallengeStage Cases.signupWithBrowserid
       (Obj [("displayName", Str "Alice");
             ("emails", Arr [Str "a@example.org"; Str "b@example.org"])])).
Proof.
  apply (unusable_profile_fails_at_once Demo.ext module_globals
           (Str "anything")
           (Cases.atChallengeStage Cases.signupWithBrowserid
              (Obj [("displayName", Str "Alice");
                    ("emails",
                     Arr [Str "a@example.org"; Str "b@example.org"])]))
           [("displayName", Str "Alice");
            ("emails", Arr [Str "a@example.org"; Str "b@example.org"])]);
    try reflexivity.
  right. exists [Str "a@example.org"; Str "b@example.org"].
  split; [reflexivity | discriminate].
Defined.

(** [X15].  An assertion that cannot be unbundled is answered with
    [bad-browserid-assertion]: the unbundler's exception is caught, whatever
    it is, and this happens before [$Q] is looked up, so whether it is bound
    does not matter.  (The profile has to carry the singular [email] for the
    verifier to get this far.) *)
Theorem unbundle_failure_is_a_bad_assertion
    (ext : Externals) (g : Globals) (assertion : value)
    (this : ProcessSignupTask.This) (fields : list (string * value))
    (address : string) (email claimed : value) (e : error) :
  get_prop (ProcessSignupTask.selfIdentPayload this) "poco"
    = Normal (Obj fields) ->
  has_key "hasOwnProperty" fields = false ->
  assoc "emails" fields = Some (Arr [Str address]) ->
  assoc "email" fields = Some email ->
  get_prop email "0" = Normal claimed ->
  unbundleCertsAndAssertion ext assertion = Throw e ->
  ProcessSignupTask.verifyBrowserId ext g assertion this
  = (Continue (Plain (Str CHALLENGE_INVALID_BROWSERID)), this).
Proof.
  intros Hpoco Hown Hemails Hemail Hclaimed Hbundle.
  unfold ProcessSignupTask.verifyBrowserId. unfold_task.
  rewrite Hpoco. simpl. rewrite Hown. unfold has_key.
  rewrite Hemails. simpl. rewrite Hemail, Hclaimed, Hbundle. reflexivity.
Qed.

Lemma unbundle_failure_is_a_bad_assertion_witness :
  ProcessSignupTask.verifyBrowserId Demo.ext module_globals (Str "gibberish")
    (Cases.atChallengeStage Cases.signupWithBrowserid Demo.aliceWithBoth)
  = (Continue (Plain (Str CHALLENGE_INVALID_BROWSERID)),
     Cases.atChallengeStage Cases.signupWithBrowserid Demo.aliceWithBoth).
Proof.
  apply (unbundle_failure_is_a_bad_assertion Demo.ext module_globals
           (Str "gibberish")
           (Cases.atChallengeStage Cases.signupWithBrowserid
              Demo.aliceWithBoth)
           [("displayName", Str "Alice");
            ("emails", Arr [Str "alice@example.org"]);
            ("email", Arr [Str "alice@example.org"])]
           "alice@example.org"
           (Arr [Str "alice@example.org"]) (Str "alice@example.org")
           (ExternalError "vep"));
    reflexivity.
Defined.

(** [X16].  Once the synchronous checks are passed and [$Q] is bound, the
    verifier returns [undefined] as soon as the chain verifier returns
    without throwing: whatever the chain verifier reports then or later, the
    BrowserID entry counts as passed. *)
Theorem verifier_passes_when_the_chain_call_returns
    (ext : Externals) (g : Globals) (assertion : value)
    (this : ProcessSignupTask.This) (fields : list (string * value))
    (address : string) (email claimed bundle certificates : value) :
  get_prop (ProcessSignupTask.selfIdentPayload this) "poco"
    = Normal (Obj fields) ->
  has_key "hasOwnProperty" fields = false ->
  assoc "emails" fields = Some (Arr [Str address]) ->
  assoc "email" fields = Some email ->
  get_prop email "0" = Normal claimed ->
  unbundleCertsAndAssertion ext assertion = Normal bundle ->
  has_Q g = true ->
  get_prop bundle "certificates" = Normal certificates ->
  verifyChain ext certificates (currentTime ext)
    ProcessSignupTask.rootCB
    (ProcessSignupTask.successCB ext g DeferFunction bundle claimed)
    (ProcessSignupTask.errorCB DeferFunction) = Normal tt ->
  ProcessSignupTask.verifyBrowserId ext g assertion this
  = (Continue (Plain Undefined), this).
Proof.
  intros Hpoco Hown Hemails Hemail Hclaimed Hbundle HQ Hcerts Hchain.
  unfold ProcessSignupTask.verifyBrowserId. unfold_task.
  rewrite Hpoco. simpl. rewrite Hown. unfold has_key.
  rewrite Hemails. simpl. rewrite Hemail, Hclaimed, Hbundle.
  unfold lookup_global. rewrite HQ, Hcerts, Hchain. reflexivity.
Qed.

Lemma verifier_passes_when_the_chain_call_returns_witness :
  ProcessSignupTask.verifyBrowserId Demo.ext Demo.libsOnly
    (Obj [("certificates", Str "unknown-issuer");
          ("assertion", Str "token")])
    (Cases.atChallengeStage Cases.signupWithBrowserid Demo.aliceWithBoth)
  = (Continue (Plain Undefined),
     Cases.atChallengeStage Cases.signupWithBrowserid Demo.aliceWithBoth).
Proof.
  apply (verifier_passes_when_the_chain_call_returns Demo.ext Demo.libsOnly
           (Obj [("certificates", Str "unknown-issuer");
                 ("assertion", Str "token")])
           (Cases.atChallengeStage Cases.signupWithBrowserid
              Demo.aliceWithBoth)
           [("displayName", Str "Alice");
            ("emails", Arr [Str "alice@example.org"]);
            ("email", Arr [Str "alice@example.org"])]
           "alice@example.org"
           (Arr [Str "alice@example.org"]) (Str "alice@example.org")
           (Obj [("certificates", Str "unknown-issuer");
                 ("assertion", Str "token")])
           (Str "unknown-issuer"));
    reflexivity.
Defined.

(** ** The accepted origins *)

Lemma prefix_is_a_split (needle hay : string) :
  String.prefix needle hay = true <-> exists after, hay = needle ++ after.
Proof.
  revert hay. induction needle as [| a needle IH]; intro hay.
  - split; [intros _; exists hay; reflexivity |].
    intros _. destruct hay; reflexivity.
  - destruct hay as [| b hay]; simpl.
    + split; [discriminate | intros [after H]; discriminate].
    + destruct (ascii_dec a b) as [-> | Hab].
      * rewrite IH. split; intros [after H]; exists after.
        -- rewrite H. reflexivity.
        -- inversion H. reflexivity.
      * split; [discriminate |].
        intros [after H]. inversion H. congruence.
Qed.

Lemma contains_is_occurrence (needle hay : string) :
  contains needle hay = true <-> occursIn needle hay.
Proof.
  unfold occursIn. induction hay as [| ch rest IH]; cbn [contains].
  - rewrite String.eqb_eq. split.
    + intros ->. exists "", "". reflexivity.
    + intros (before & after & H).
      destruct before; [| discriminate].
      destruct needle; [reflexivity | discriminate].
  - rewrite orb_true_iff, IH. split.
    + intros [P | (before & after & H)].
      * apply prefix_is_a_split in P. destruct P as [after H].
        exists "", after. exact H.
      * exists (String ch before), after. simpl. rewrite H. reflexivity.
    + intros (before & after & H). destruct before as [| b before].
      * left. apply prefix_is_a_split. exists after. exact H.
      * right. simpl in H. inversion H. exists before, after. reflexivity.
Qed.

(** [X17].  [validateClientOrigin] decides on the dot alone: a host given as
    a string is refused exactly when a dot occurs in it, and accepted
    exactly when none does; it never throws on a string. *)
Theorem origin_is_accepted_iff_it_has_no_dot (host : string) :
  (ProcessSignupTask.validateClientOrigin (Str host) = Normal false <->
   occursIn "." host) /\
  (ProcessSignupTask.validateClientOrigin (Str host) = Normal true <->
   ~ occursIn "." host).
Proof.
  unfold ProcessSignupTask.validateClientOrigin. simpl.
  rewrite <- contains_is_occurrence.
  destruct (contains "." host); simpl; split; split;
    try discriminate; try reflexivity; auto; intro H;
    try (exfalso; apply H; reflexivity); try discriminate.
Qed.

Lemma origin_is_accepted_iff_it_has_no_dot_witness :
  ProcessSignupTask.validateClientOrigin (Str "mail.example.org")
  = Normal false.
Proof.
  apply (proj2 (proj1 (origin_is_accepted_iff_it_has_no_dot
                         "mail.example.org"))).
  exists "mail", "example.org". reflexivity.
Defined.

(** ** The phonebook *)

(** [X18].  The phonebook task asks the store for the public listing once
    and hands the peer exactly what the store answered, in one [listing]
    message, then closes; when the scan fails the task is rejected with the
    store's error and nothing is written.  Neither the request nor the
    client's key has any influence: every client is given the same
    listing. *)
Theorem phonebook_hands_out_the_public_listing
    (request : value) (c : Conn) :
  PhonebookTask.run request c =
  match phonebookScanPublicListing (authApi (serverConfig c)) with
  | Normal selfIdentBlobs =>
      (Resolved Undefined,
       {| PhonebookTask.msg := request;
          PhonebookTask.conn := c;
          PhonebookTask.log :=
            [PhonebookTask.ScanPublicListing;
             PhonebookTask.Write
               (Obj [("type", Str "listing");
                     ("selfIdentBlobs", selfIdentBlobs)]);
             PhonebookTask.CloseConnection] |})
  | Throw e =>
      (Rejected e,
       {| PhonebookTask.msg := request;
          PhonebookTask.conn := c;
          PhonebookTask.log := [PhonebookTask.ScanPublicListing] |})
  end.
Proof.
  unfold PhonebookTask.run, PhonebookTask.steps. simpl run_steps.
  unfold PhonebookTask.scan_phonebook, PhonebookTask.report_results_and_close.
  unfold_task. simpl.
  destruct (phonebookScanPublicListing (authApi (serverConfig c)));
    reflexivity.
Qed.

(** ** What the peer can be told *)

(** [X19].  When no global [problemo] is bound, the only messages a run of
    the signup task ever writes are the [never] challenge, the
    [already-signed-up] challenge and [signedUp]: neither
    [bad-browserid-assertion] nor [server-problem-try-again-later] reaches
    the peer. *)
Theorem only_three_messages_are_ever_written
    (ext : Externals) (g : Globals) (m : Msg) (c : Conn) (message : value) :
  problemo g = None ->
  In (WriteMessage message) (ProcessSignupTask.events ext g m c) ->
  message = neverMessage \/
  message = alreadyMessage \/
  message = signedUpMessage.
Proof.
  intro Hno. unfold ProcessSignupTask.events.
  destruct (ProcessSignupTask.run ext g m c) as [r this'] eqn:R.
  apply run_course in R. simpl. intro Hin.
  inversion R; subst;
    match goal with
    | H : _ = ProcessSignupTask.log this' |- _ => rewrite <- H in Hin
    end; simpl in Hin;
    repeat (destruct Hin as [Hin | Hin]; try discriminate);
    try contradiction;
    try (inversion Hin; subst; auto; fail).
  rewrite Hno in *. discriminate.
Qed.

Lemma only_three_messages_are_ever_written_witness :
  signedUpMessage = neverMessage \/
  signedUpMessage = alreadyMessage \/
  signedUpMessage = signedUpMessage.
Proof.
  apply (only_three_messages_are_ever_written Demo.ext module_globals
           Cases.plainSignup (Demo.connOf Demo.emptyStore) signedUpMessage).
  - reflexivity.
  - right. right. left. reflexivity.
Defined.
